(** * Flask_vs_FastAPI: the todo store of [FastAPI/main.py] and [Flask/main.py]

    Both programs keep one module-level Python list [todos] and expose the
    same seven routes over it.  Each handler is embedded as a function from
    the list before the call to the list after it and the HTTP response.
    The FastAPI handlers receive values that pydantic has already validated
    against the [Todo] model; the Flask handlers receive the raw JSON object
    of the request and copy whatever it holds into the [Todo] dataclass. *)

From stdpp Require Import base option list strings pretty gmap.
From Stdlib Require Import ZArith Lia PrimFloat.
From Stdlib Require Uint63.

Local Open Scope string_scope.
Local Open Scope list_scope.
Local Open Scope Z_scope.

(** ** Python list idioms shared by the two programs *)

Section PyList.
Context {A : Type}.

(** [for x in l: if hit(x): return x] and falling out of the loop. *)
Fixpoint scan_find (hit : A → bool) (l : list A) : option A :=
  match l with
  | [] => None
  | x :: r => if hit x then Some x else scan_find hit r
  end.

(** [for x in l: if hit(x): <assign fields of x>; return x].  The object
    is mutated where it sits in the list; [f] is the effect of the
    assignments on it.  [None] is falling out of the loop. *)
Fixpoint scan_mutate (hit : A → bool) (f : A → A) (l : list A)
  : option (list A * A) :=
  match l with
  | [] => None
  | x :: r =>
      if hit x then Some (f x :: r, f x)
      else match scan_mutate hit f r with
           | Some (r', y) => Some (x :: r', y)
           | None => None
           end
  end.

(** The list when the loop of [scan_mutate] is over, hit or no hit. *)
Definition scan_mutated (hit : A → bool) (f : A → A) (l : list A) : list A :=
  match scan_mutate hit f l with
  | Some (l', _) => l'
  | None => l
  end.

(** [l.remove(x)]: deletes the first element [e] with [e == x]; [None] is
    the [ValueError] raised when there is none. *)
Fixpoint py_remove (eqb : A → A → bool) (x : A) (l : list A)
  : option (list A) :=
  match l with
  | [] => None
  | e :: r =>
      if eqb e x then Some r
      else match py_remove eqb x r with
           | Some r' => Some (e :: r')
           | None => None
           end
  end.

(** Position [i] holds [x], the first element of [l] that [hit] accepts. *)
Definition first_hit (hit : A → bool) (l : list A) (i : nat) (x : A) : Prop :=
  l !! i = Some x ∧ hit x = true ∧
  ∀ j y, (j < i)%nat → l !! j = Some y → hit y = false.

(** No element is [same] as a later one. *)
Fixpoint all_distinct (same : A → A → bool) (l : list A) : bool :=
  match l with
  | [] => true
  | x :: r => forallb (λ y, negb (same x y)) r && all_distinct same r
  end.
End PyList.

(** ** FastAPI/main.py *)

Module FastAPI.

(** [class Todo(BaseModel)]: [id: int], [item: str],
    [completed: bool = False]. *)
Record Todo := { id : Z; item : string; completed : bool }.

(** Equality of two models, field by field (pydantic's [__eq__]). *)
Definition Todo_eq (a b : Todo) : bool :=
  (id a =? id b) && String.eqb (item a) (item b)
  && Bool.eqb (completed a) (completed b).

(** What a handler returns (a dict serialised to JSON) or raises
    ([HTTPException] with a [detail]). *)
Inductive payload :=
| Message (message : string)
| TodoList (todos : list Todo)
| OneTodo (todo : Todo)
| MessageTodo (message : string) (todo : Todo)
| Detail (detail : string)
| ServerError.

Record response := { status_code : Z; content : payload }.

Definition HTTP_200_OK := 200.
Definition HTTP_201_CREATED := 201.
Definition HTTP_204_NO_CONTENT := 204.
Definition HTTP_400_BAD_REQUEST := 400.
Definition HTTP_404_NOT_FOUND := 404.

Definition HTTPException (code : Z) (detail : string) : response :=
  {| status_code := code; content := Detail detail |}.

Definition root : response :=
  {| status_code := HTTP_200_OK;
     content := Message "Welcome to my Todo Application" |}.

Definition get_todos (todos : list Todo) : response :=
  {| status_code := HTTP_200_OK; content := TodoList todos |}.

Definition get_todo (todo_id : Z) (todos : list Todo) : response :=
  match scan_find (λ todo, id todo =? todo_id) todos with
  | Some todo => {| status_code := HTTP_200_OK; content := OneTodo todo |}
  | None => HTTPException HTTP_404_NOT_FOUND "Todo not found"
  end.

Definition create_todo (todo : Todo) (todos : list Todo)
  : list Todo * response :=
  match scan_find (λ existing_todo, id existing_todo =? id todo) todos with
  | Some _ =>
      (todos, HTTPException HTTP_400_BAD_REQUEST
                "Todo with this ID already exists")
  | None =>
      (todos ++ [todo],
       {| status_code := HTTP_201_CREATED;
          content := MessageTodo "Todo has been added" todo |})
  end.

Definition update_todo (todo_id : Z) (todo_obj : Todo) (todos : list Todo)
  : list Todo * response :=
  match scan_mutate (λ todo, id todo =? todo_id)
          (λ todo, {| id := id todo; item := item todo_obj;
                      completed := completed todo_obj |}) todos with
  | Some (todos', todo) =>
      (todos', {| status_code := HTTP_200_OK;
                  content := MessageTodo "Todo updated" todo |})
  | None => (todos, HTTPException HTTP_404_NOT_FOUND "Todo not found")
  end.

Definition toggle_complete (todo_id : Z) (todos : list Todo)
  : list Todo * response :=
  match scan_mutate (λ todo, id todo =? todo_id)
          (λ todo, {| id := id todo; item := item todo;
                      completed := negb (completed todo) |}) todos with
  | Some (todos', todo) =>
      (todos', {| status_code := HTTP_200_OK;
                  content := MessageTodo "Todo completion status toggled" todo |})
  | None => (todos, HTTPException HTTP_404_NOT_FOUND "Todo not found")
  end.

(** [todos.remove(todo)] cannot raise here, the element was just found in
    the list; the [None] branch is the unhandled [ValueError]. *)
Definition delete_todo (todo_id : Z) (todos : list Todo)
  : list Todo * response :=
  match scan_find (λ todo, id todo =? todo_id) todos with
  | Some todo =>
      match py_remove Todo_eq todo todos with
      | Some todos' =>
          (todos', {| status_code := HTTP_204_NO_CONTENT;
                      content := Message "Todo removed" |})
      | None => (todos, {| status_code := 500; content := ServerError |})
      end
  | None => (todos, HTTPException HTTP_404_NOT_FOUND "Todo not found")
  end.

(** A request as the route decorators hand it to a handler: the path
    parameter is declared [todo_id: int], the body [Todo].  A request whose
    path or body fails that validation is answered 422 by FastAPI before any
    handler runs and is not a value of this type. *)
Inductive request :=
| GET_root
| GET_todos
| GET_todo (todo_id : Z)
| POST_todos (todo : Todo)
| PUT_todo (todo_id : Z) (todo_obj : Todo)
| PATCH_complete (todo_id : Z)
| DELETE_todo (todo_id : Z).

(** The [@app.get], [@app.post], [@app.put], [@app.patch] and [@app.delete]
    table: method and path select the handler. *)
Definition app (req : request) (todos : list Todo) : list Todo * response :=
  match req with
  | GET_root => (todos, root)
  | GET_todos => (todos, get_todos todos)
  | GET_todo todo_id => (todos, get_todo todo_id todos)
  | POST_todos todo => create_todo todo todos
  | PUT_todo todo_id todo_obj => update_todo todo_id todo_obj todos
  | PATCH_complete todo_id => toggle_complete todo_id todos
  | DELETE_todo todo_id => delete_todo todo_id todos
  end.

(** The requests of a run, served one after the other. *)
Fixpoint serve (reqs : list request) (todos : list Todo)
  : list Todo * list response :=
  match reqs with
  | [] => (todos, [])
  | req :: rest =>
      let '(todos1, resp) := app req todos in
      let '(todos2, resps) := serve rest todos1 in
      (todos2, resp :: resps)
  end.

End FastAPI.

(** ** Flask/main.py *)

Module Flask.

(** The values [request.get_json()] puts in the body dict, as far as they
    are modelled: [None], [bool], [int] and [str].  Floating-point
    numbers, arrays and nested objects are left out. *)
Inductive json :=
| JNull
| JBool (b : bool)
| JInt (n : Z)
| JStr (s : string).

(** [bool] is a subclass of [int]: [True == 1] and [False == 0]. *)
Definition as_int (v : json) : option Z :=
  match v with
  | JBool b => Some (if b then 1 else 0)
  | JInt n => Some n
  | _ => None
  end.

(** Python's [a == b] on these values. *)
Definition py_eq (a b : json) : bool :=
  match as_int a, as_int b with
  | Some m, Some n => m =? n
  | None, None =>
      match a, b with
      | JNull, JNull => true
      | JStr s, JStr t => String.eqb s t
      | _, _ => false
      end
  | _, _ => false
  end.

(** Truth value of an object, as [not] and [if] take it. *)
Definition truthy (v : json) : bool :=
  match v with
  | JNull => false
  | JBool b => b
  | JInt n => negb (n =? 0)
  | JStr s => negb (String.eqb s "")
  end.

(** [not v] is always a [bool]. *)
Definition py_not (v : json) : json := JBool (negb (truthy v)).

(** [data.get(key)] and [data.get(key, default)]. *)
Definition dict_get (data : gmap string json) (key : string) (dflt : json)
  : json :=
  match data !! key with
  | Some v => v
  | None => dflt
  end.

(** [@dataclass class Todo]: the annotations [int], [str], [bool] are not
    enforced, the fields hold what the constructor was given. *)
Record Todo := { id : json; item : json; completed : json }.

(** The [__eq__] a dataclass generates: the tuples of fields are compared. *)
Definition Todo_eq (a b : Todo) : bool :=
  py_eq (id a) (id b) && py_eq (item a) (item b)
  && py_eq (completed a) (completed b).

(** The argument of [jsonify], or the page of an error raised by Flask
    itself. *)
Inductive payload :=
| Message (message : string)
| TodoList (todos : list Todo)
| OneTodo (todo : Todo)
| MessageTodo (message : string) (todo : Todo)
| Error (error : string)
| NotFoundPage
| ServerError.

Record response := { status_code : Z; content : payload }.

Definition root : response :=
  {| status_code := 200;
     content := Message "Welcome to my Todo Application" |}.

Definition get_todos (todos : list Todo) : response :=
  {| status_code := 200; content := TodoList todos |}.

Definition get_todo (todo_id : Z) (todos : list Todo) : response :=
  match scan_find (λ todo, py_eq (id todo) (JInt todo_id)) todos with
  | Some todo => {| status_code := 200; content := OneTodo todo |}
  | None => {| status_code := 404; content := Error "Todo not found" |}
  end.

Definition create_todo (data : gmap string json) (todos : list Todo)
  : list Todo * response :=
  match scan_find
          (λ existing_todo, py_eq (id existing_todo) (dict_get data "id" JNull))
          todos with
  | Some _ =>
      (todos, {| status_code := 400;
                 content := Error "Todo with this ID already exists" |})
  | None =>
      let new_todo :=
        {| id := dict_get data "id" JNull;
           item := dict_get data "item" JNull;
           completed := dict_get data "completed" (JBool false) |} in
      (todos ++ [new_todo],
       {| status_code := 201;
          content := MessageTodo "Todo has been added" new_todo |})
  end.

Definition update_todo (todo_id : Z) (data : gmap string json)
    (todos : list Todo) : list Todo * response :=
  match scan_mutate (λ todo, py_eq (id todo) (JInt todo_id))
          (λ todo, {| id := id todo;
                      item := dict_get data "item" (item todo);
                      completed := dict_get data "completed" (completed todo) |})
          todos with
  | Some (todos', todo) =>
      (todos', {| status_code := 200;
                  content := MessageTodo "Todo updated" todo |})
  | None => (todos, {| status_code := 404; content := Error "Todo not found" |})
  end.

Definition toggle_complete (todo_id : Z) (todos : list Todo)
  : list Todo * response :=
  match scan_mutate (λ todo, py_eq (id todo) (JInt todo_id))
          (λ todo, {| id := id todo; item := item todo;
                      completed := py_not (completed todo) |}) todos with
  | Some (todos', todo) =>
      (todos', {| status_code := 200;
                  content := MessageTodo "Todo completion status toggled" todo |})
  | None => (todos, {| status_code := 404; content := Error "Todo not found" |})
  end.

(** As in the FastAPI program, [todos.remove(todo)] is called on an element
    just found in the list; [None] is the unhandled [ValueError]. *)
Definition delete_todo (todo_id : Z) (todos : list Todo)
  : list Todo * response :=
  match scan_find (λ todo, py_eq (id todo) (JInt todo_id)) todos with
  | Some todo =>
      match py_remove Todo_eq todo todos with
      | Some todos' =>
          (todos', {| status_code := 204; content := Message "Todo removed" |})
      | None => (todos, {| status_code := 500; content := ServerError |})
      end
  | None => (todos, {| status_code := 404; content := Error "Todo not found" |})
  end.

(** A request: the number written in the URL and the JSON object sent.
    A body that is not JSON is refused by [request.get_json()] before the
    handler uses it, and on JSON that is not an object [data.get] raises;
    neither is a value of this type. *)
Inductive request :=
| GET_root
| GET_todos
| GET_todo (todo_id : Z)
| POST_todos (data : gmap string json)
| PUT_todo (todo_id : Z) (data : gmap string json)
| PATCH_complete (todo_id : Z)
| DELETE_todo (todo_id : Z).

(** The [int] converter of the rules ['/todos/<int:todo_id>']: it matches
    a run of decimal digits and nothing else (Werkzeug's [IntegerConverter]
    is unsigned unless the rule says [signed=True]), so a URL with a
    negative number matches no rule. *)
Definition int_converter (todo_id : Z) : bool := 0 <=? todo_id.

(** The answer to a URL that matches no rule; no handler runs. *)
Definition no_rule (todos : list Todo) : list Todo * response :=
  (todos, {| status_code := 404; content := NotFoundPage |}).

(** The [@app.route] table: method and URL rule select the handler. *)
Definition app (req : request) (todos : list Todo) : list Todo * response :=
  match req with
  | GET_root => (todos, root)
  | GET_todos => (todos, get_todos todos)
  | GET_todo todo_id =>
      if int_converter todo_id then (todos, get_todo todo_id todos)
      else no_rule todos
  | POST_todos data => create_todo data todos
  | PUT_todo todo_id data =>
      if int_converter todo_id then update_todo todo_id data todos
      else no_rule todos
  | PATCH_complete todo_id =>
      if int_converter todo_id then toggle_complete todo_id todos
      else no_rule todos
  | DELETE_todo todo_id =>
      if int_converter todo_id then delete_todo todo_id todos
      else no_rule todos
  end.

(** The requests of a run, served one after the other. *)
Fixpoint serve (reqs : list request) (todos : list Todo)
  : list Todo * list response :=
  match reqs with
  | [] => (todos, [])
  | req :: rest =>
      let '(todos1, resp) := app req todos in
      let '(todos2, resps) := serve rest todos1 in
      (todos2, resp :: resps)
  end.

End Flask.

(** ** Flask/locustfile.py: the counts of the summary *)

Module Locust.

(** One entry of [PerformanceMetricsCollector.metrics].  The keys
    [timestamp] and [response_time] hold clock readings and floats and are
    not part of the record. *)
Record metric := {
  request_type : string;
  name : string;
  response_length : Z;
  response_code : Z;
  concurrent_users : Z;
  success : bool
}.

(** [[m for m in self.metrics if m['success']]] *)
Definition successful_requests (metrics : list metric) : list metric :=
  List.filter success metrics.

(** The three counts [_print_summary] prints: total, successful, failed. *)
Definition summary_counts (metrics : list metric) : Z * Z * Z :=
  (Z.of_nat (length metrics),
   Z.of_nat (length (successful_requests metrics)),
   Z.of_nat (length metrics) - Z.of_nat (length (successful_requests metrics))).

End Locust.

(** ** The same request sent to both programs *)

(** The JSON object a client sends for a complete [Todo]: all three keys,
    each with a value of the declared type. *)
Definition full_body (todo : FastAPI.Todo) : gmap string Flask.json :=
  <["id" := Flask.JInt (FastAPI.id todo)]>
    (<["item" := Flask.JStr (FastAPI.item todo)]>
       (<["completed" := Flask.JBool (FastAPI.completed todo)]> ∅)).

Definition to_flask (req : FastAPI.request) : Flask.request :=
  match req with
  | FastAPI.GET_root => Flask.GET_root
  | FastAPI.GET_todos => Flask.GET_todos
  | FastAPI.GET_todo todo_id => Flask.GET_todo todo_id
  | FastAPI.POST_todos todo => Flask.POST_todos (full_body todo)
  | FastAPI.PUT_todo todo_id todo_obj => Flask.PUT_todo todo_id (full_body todo_obj)
  | FastAPI.PATCH_complete todo_id => Flask.PATCH_complete todo_id
  | FastAPI.DELETE_todo todo_id => Flask.DELETE_todo todo_id
  end.

(** The dataclass instance with the fields of a pydantic model. *)
Definition same_todo (todo : FastAPI.Todo) : Flask.Todo :=
  {| Flask.id := Flask.JInt (FastAPI.id todo);
     Flask.item := Flask.JStr (FastAPI.item todo);
     Flask.completed := Flask.JBool (FastAPI.completed todo) |}.

(** The number the URL of a request carries, if it has one. *)
Definition path_id (req : FastAPI.request) : option Z :=
  match req with
  | FastAPI.GET_todo todo_id | FastAPI.PUT_todo todo_id _
  | FastAPI.PATCH_complete todo_id | FastAPI.DELETE_todo todo_id => Some todo_id
  | _ => None
  end.

(** A 2xx answer. *)
Definition succeeded (code : Z) : bool := (200 <=? code) && (code <? 300).

(** The object [Todo(id=data.get('id'), item=data.get('item'),
    completed=data.get('completed', False))] that the Flask [create_todo]
    builds from a body. *)
Definition new_todo (data : gmap string Flask.json) : Flask.Todo :=
  {| Flask.id := Flask.dict_get data "id" Flask.JNull;
     Flask.item := Flask.dict_get data "item" Flask.JNull;
     Flask.completed := Flask.dict_get data "completed" (Flask.JBool false) |}.

(** The URL of the request matches a rule of both programs. *)
Definition path_ok (req : FastAPI.request) : bool :=
  match path_id req with
  | Some todo_id => 0 <=? todo_id
  | None => true
  end.

(** The invariant of each store: the ids, read off in list order, are
    pairwise different under the comparison [create_todo] makes. *)
Definition fastapi_inv (todos : list FastAPI.Todo) : Prop :=
  all_distinct Z.eqb (map FastAPI.id todos) = true.

Definition flask_inv (todos : list Flask.Todo) : Prop :=
  all_distinct Flask.py_eq (map Flask.id todos) = true.

(** ** Flask/locustfile.py: the collector and the virtual user *)

Module PerformanceMetricsCollector.

(** [add_metric]: one more entry at the end of [self.metrics], built from
    the arguments (the [timestamp] and the [response_time] it also stores
    are clock readings, see [Locust.metric]). *)
Definition add_metric (request_type name : string)
    (response_length response_code concurrent_users : Z) (success : bool)
    (metrics : list Locust.metric) : list Locust.metric :=
  metrics ++ [{| Locust.request_type := request_type;
                 Locust.name := name;
                 Locust.response_length := response_length;
                 Locust.response_code := response_code;
                 Locust.concurrent_users := concurrent_users;
                 Locust.success := success |}].

(** An entry of [self.metrics] together with its key [response_time], the
    milliseconds a task measured, a binary64 float. *)
Record timed_metric := { entry : Locust.metric; response_time : float }.

(** A list length as the float it becomes in a division by or of a float
    (lengths are below 2^63). *)
Definition float_of_len (n : nat) : float :=
  PrimFloat.of_uint63 (Uint63.of_Z (Z.of_nat n)).

(** [min(xs)] and [max(xs)] on a non-empty list [first :: rest]: the current
    item is replaced when the next one is smaller, respectively larger. *)
Definition py_min (first : float) (rest : list float) : float :=
  fold_left (λ current item, if PrimFloat.ltb item current then item else current)
    rest first.

Definition py_max (first : float) (rest : list float) : float :=
  fold_left (λ current item, if PrimFloat.ltb current item then item else current)
    rest first.

(** What [_print_summary] prints, line by line; a number is the value handed
    to the format ([:.2f] for the floats). *)
Inductive line :=
| Text (text : string)
| Total_Requests (n : Z)
| Successful_Requests (n : Z)
| Failed_Requests (n : Z)
| Average_Response_Time (x : float)
| Minimum_Response_Time (x : float)
| Maximum_Response_Time (x : float)
| Throughput (x : float).

Inductive outcome := Returned | Raised_ZeroDivisionError.

Section Summary.

(** The builtin [sum] on a non-empty list of floats.  How it rounds is the
    interpreter's business (plain left-to-right addition, or a compensated
    one in later CPython versions), so it is left open here. *)
Variable py_sum : list float → float.

(** [_print_summary]; [test_duration] is the value of
    [(datetime.now() - self.start_time).total_seconds()] read after the
    response-time lines are printed.  A division by zero raises and ends the
    summary where it stands. *)
Definition _print_summary (metrics : list timed_metric) (test_duration : float)
  : list line * outcome :=
  let response_times := map response_time metrics in
  let '(total, successful, failed) := Locust.summary_counts (map entry metrics) in
  let counts :=
    [Text "--- Performance Test Summary ---";
     Total_Requests total; Successful_Requests successful;
     Failed_Requests failed;
     Text "Response Time Metrics:"] in
  match response_times with
  | [] => (counts, Raised_ZeroDivisionError)
  | first :: rest =>
      let times :=
        counts ++
        [Average_Response_Time
           (PrimFloat.div (py_sum response_times)
              (float_of_len (length response_times)));
         Minimum_Response_Time (py_min first rest);
         Maximum_Response_Time (py_max first rest)] in
      if PrimFloat.eqb test_duration 0
      then (times, Raised_ZeroDivisionError)
      else (times ++
            [Throughput (PrimFloat.div (float_of_len (length metrics))
                           test_duration)],
            Returned)
  end.

End Summary.




End PerformanceMetricsCollector.

Module TodoLoadTest.

(** What a task reads off the response of [self.client]: its
    [status_code], and the number the task computes with
    [len(response.content) if response and response.content else 0]. *)
Record reply := { status_code : Z; response_length : Z }.

(** [code in [a, b]] *)
Definition code_in (code : Z) (codes : list Z) : bool :=
  existsb (Z.eqb code) codes.

(** [random.choice(seq)] on a non-empty list: the element at a random index
    below [len(seq)]; [pick] is the random number the index is taken from. *)
Definition choice (pick : nat) (seq : list Z) : Z :=
  nth (pick mod length seq) seq 0.

Section Client.
Context {server : Type}.

(** [self.client]: the request goes to the server, which changes state and
    answers.  The bodies the tasks send are complete Todos. *)
Variable client : FastAPI.request → server → server * reply.

(** What a task works on: the server behind the client, the list
    [performance_collector.metrics], and [self.todo_ids] of the user. *)
Record state := { backend : server;
                  metrics : list Locust.metric;
                  todo_ids : list Z }.

(** [@task(3) get_todos]; [user_count] is
    [self.environment.runner.user_count] when the response arrives. *)
Definition get_todos (user_count : Z) (st : state) : state :=
  let '(backend', response) := client FastAPI.GET_todos (backend st) in
  {| backend := backend';
     metrics :=
       PerformanceMetricsCollector.add_metric "GET" "/todos"
         (response_length response) (status_code response) user_count
         (code_in (status_code response) [200; 204]) (metrics st);
     todo_ids := todo_ids st |}.

(** [@task(2) create_todo]; [id_draw] is [random.randint(1, 10000)] and
    [item_draw] is [random.randint(1, 1000)]. *)
Definition create_todo (id_draw item_draw user_count : Z) (st : state) : state :=
  let todo := {| FastAPI.id := id_draw;
                 FastAPI.item := String.append "Test Todo " (pretty item_draw);
                 FastAPI.completed := false |} in
  let '(backend', response) := client (FastAPI.POST_todos todo) (backend st) in
  {| backend := backend';
     metrics :=
       PerformanceMetricsCollector.add_metric "POST" "/todos"
         (response_length response) (status_code response) user_count
         (code_in (status_code response) [200; 201]) (metrics st);
     todo_ids :=
       if code_in (status_code response) [200; 201]
       then todo_ids st ++ [id_draw]
       else todo_ids st |}.

(** [@task(1) update_todo]: nothing is sent and nothing recorded while
    [self.todo_ids] is empty. *)
Definition update_todo (pick : nat) (item_draw : Z) (completed_draw : bool)
    (user_count : Z) (st : state) : state :=
  match todo_ids st with
  | [] => st
  | _ :: _ =>
      let todo_id := choice pick (todo_ids st) in
      let updated_todo :=
        {| FastAPI.id := todo_id;
           FastAPI.item := String.append "Updated Todo " (pretty item_draw);
           FastAPI.completed := completed_draw |} in
      let '(backend', response) :=
        client (FastAPI.PUT_todo todo_id updated_todo) (backend st) in
      {| backend := backend';
         metrics :=
           PerformanceMetricsCollector.add_metric "PUT"
             (String.append "/todos/" (pretty todo_id))
             (response_length response) (status_code response) user_count
             (code_in (status_code response) [200; 204]) (metrics st);
         todo_ids := todo_ids st |}
  end.

(** [@task(1) delete_todo]: skipped like [update_todo]; after a success the
    id is taken out of [self.todo_ids] with [remove] (a [ValueError] there
    would leave the list as it is). *)
Definition delete_todo (pick : nat) (user_count : Z) (st : state) : state :=
  match todo_ids st with
  | [] => st
  | _ :: _ =>
      let todo_id := choice pick (todo_ids st) in
      let '(backend', response) :=
        client (FastAPI.DELETE_todo todo_id) (backend st) in
      {| backend := backend';
         metrics :=
           PerformanceMetricsCollector.add_metric "DELETE"
             (String.append "/todos/" (pretty todo_id))
             (response_length response) (status_code response) user_count
             (code_in (status_code response) [200; 204]) (metrics st);
         todo_ids :=
           if code_in (status_code response) [200; 204]
           then match py_remove Z.eqb todo_id (todo_ids st) with
                | Some ids => ids
                | None => todo_ids st
                end
           else todo_ids st |}
  end.

(** One task of one user, with the random numbers it draws. *)
Inductive action :=
| Get_todos (user_count : Z)
| Create_todo (id_draw item_draw user_count : Z)
| Update_todo (pick : nat) (item_draw : Z) (completed_draw : bool)
    (user_count : Z)
| Delete_todo (pick : nat) (user_count : Z).

Definition perform (a : action) (st : state) : state :=
  match a with
  | Get_todos user_count => get_todos user_count st
  | Create_todo id_draw item_draw user_count =>
      create_todo id_draw item_draw user_count st
  | Update_todo pick item_draw completed_draw user_count =>
      update_todo pick item_draw completed_draw user_count st
  | Delete_todo pick user_count => delete_todo pick user_count st
  end.

(** A test run: one server, one collector, and the [todo_ids] of every
    user. *)
Record world := { server_state : server;
                  collected : list Locust.metric;
                  users : list (list Z) }.

(** User number [u] runs one task; the tasks of a run happen one at a
    time. *)
Definition step (u : nat) (a : action) (w : world) : world :=
  match users w !! u with
  | None => w
  | Some ids =>
      let st := perform a {| backend := server_state w;
                             metrics := collected w;
                             todo_ids := ids |} in
      {| server_state := backend st;
         collected := metrics st;
         users := <[u := todo_ids st]> (users w) |}
  end.

Fixpoint run (schedule : list (nat * action)) (w : world) : world :=
  match schedule with
  | [] => w
  | (u, a) :: rest => run rest (step u a w)
  end.

End Client.

(** The draws of a task are in the ranges its [random.randint] calls name. *)
Definition in_range (a : action) : Prop :=
  match a with
  | Create_todo id_draw item_draw _ =>
      1 ≤ id_draw ≤ 10000 ∧ 1 ≤ item_draw ≤ 1000
  | Update_todo _ item_draw _ _ => 1 ≤ item_draw ≤ 1000
  | _ => True
  end.

(** The id a create draws, if the task is a create, is one [valid] accepts. *)
Definition draws (valid : Z → Prop) (a : action) : Prop :=
  match a with
  | Create_todo id_draw _ _ => valid id_draw
  | _ => True
  end.

(** The client pointed at the FastAPI program; [measure] gives the length
    the task computes from a response. *)
Definition fastapi_client (measure : FastAPI.response → Z)
    (req : FastAPI.request) (todos : list FastAPI.Todo)
  : list FastAPI.Todo * reply :=
  let '(todos', response) := FastAPI.app req todos in
  (todos', {| status_code := FastAPI.status_code response;
              response_length := measure response |}).

(** The client pointed at the Flask program. *)
Definition flask_client (measure : Flask.response → Z)
    (req : FastAPI.request) (todos : list Flask.Todo)
  : list Flask.Todo * reply :=
  let '(todos', response) := Flask.app (to_flask req) todos in
  (todos', {| status_code := Flask.status_code response;
              response_length := measure response |}).

(** The id [x] can be reached in the list of each program: some record has
    it, for the Flask program in the sense of its [==]. *)
Definition fastapi_stored (todos : list FastAPI.Todo) (x : Z) : Prop :=
  ∃ t, t ∈ todos ∧ FastAPI.id t = x.

Definition flask_stored (todos : list Flask.Todo) (x : Z) : Prop :=
  ∃ t, t ∈ todos ∧ Flask.py_eq (Flask.id t) (Flask.JInt x) = true.

(** The ids the users of a run keep are pairwise different, across users
    too, each is [valid] and [stored] on the server. *)
Definition tracked_ok {server : Type} (stored : server → Z → Prop)
    (valid : Z → Prop) (w : @world server) : Prop :=
  NoDup (concat (users w)) ∧
  ∀ x, x ∈ concat (users w) → valid x ∧ stored (server_state w) x.

(** Every recorded request other than a create was a success. *)
Definition only_creates_fail (metrics : list Locust.metric) : Prop :=
  ∀ m, m ∈ metrics → Locust.request_type m ≠ "POST" → Locust.success m = true.

(** The [success] flag of every recorded request says whether its code is
    a 2xx code. *)
Definition flags_follow_codes (metrics : list Locust.metric) : Prop :=
  ∀ m, m ∈ metrics → Locust.success m = succeeded (Locust.response_code m).

(** A recorded request without its [response_length]. *)
Definition observed (m : Locust.metric) : string * string * Z * Z * bool :=
  (Locust.request_type m, Locust.name m, Locust.response_code m,
   Locust.concurrent_users m, Locust.success m).

End TodoLoadTest.

(** The status codes each route can answer with: the code of its decorator
    or [jsonify] for a return, the code of its [raise] or error return. *)
Definition fastapi_codes (req : FastAPI.request) : list Z :=
  match req with
  | FastAPI.GET_root | FastAPI.GET_todos => [200]
  | FastAPI.GET_todo _ => [200; 404]
  | FastAPI.POST_todos _ => [201; 400]
  | FastAPI.PUT_todo _ _ | FastAPI.PATCH_complete _ => [200; 404]
  | FastAPI.DELETE_todo _ => [204; 404]
  end.

Definition flask_codes (req : Flask.request) : list Z :=
  match req with
  | Flask.GET_root | Flask.GET_todos => [200]
  | Flask.GET_todo _ => [200; 404]
  | Flask.POST_todos _ => [201; 400]
  | Flask.PUT_todo _ _ | Flask.PATCH_complete _ => [200; 404]
  | Flask.DELETE_todo _ => [204; 404]
  end.

(** ** Facts about the list idioms *)

Section PyListFacts.
Context {A : Type}.
Implicit Types (hit : A → bool) (f : A → A) (l : list A).

Lemma scan_find_None hit l :
  scan_find hit l = None ↔ ∀ x, x ∈ l → hit x = false.
Proof.
  induction l as [|a l IH]; simpl.
  - split; [intros _ x Hx; inversion Hx | done].
  - destruct (hit a) eqn:Ha.
    + split; [done|]. intros H. specialize (H a (list_elem_of_here _ _)).
      congruence.
    + rewrite IH. split.
      * intros H x Hx. apply elem_of_cons in Hx as [->|Hx]; auto.
      * intros H x Hx. apply H. by apply list_elem_of_further.
Qed.

Lemma scan_find_first_hit hit l x :
  scan_find hit l = Some x ↔ ∃ i, first_hit hit l i x.
Proof.
  induction l as [|a l IH]; simpl.
  - split; [done|]. intros (i & Hi & _). by destruct i.
  - destruct (hit a) eqn:Ha.
    + split.
      * intros [= <-]. exists 0%nat. repeat split; auto. intros j y Hj. lia.
      * intros (i & Hi & Hx & Hlt). destruct i as [|i].
        { simpl in Hi. congruence. }
        specialize (Hlt 0%nat a ltac:(lia) eq_refl). congruence.
    + rewrite IH. split.
      * intros (i & Hi & Hx & Hlt). exists (S i). repeat split; auto.
        intros [|j] y Hj Hy; simpl in Hy; [congruence|].
        apply (Hlt j); [lia | done].
      * intros (i & Hi & Hx & Hlt). destruct i as [|i].
        { simpl in Hi. congruence. }
        exists i. repeat split; auto.
        intros j y Hj Hy. apply (Hlt (S j)); [lia | done].
Qed.

Lemma scan_find_is_Some hit l :
  (∃ x, x ∈ l ∧ hit x = true) → ∃ x, scan_find hit l = Some x.
Proof.
  intros (x & Hx & Hh). destruct (scan_find hit l) as [y|] eqn:E; [eauto|].
  rewrite scan_find_None in E. rewrite (E x Hx) in Hh. done.
Qed.

Lemma first_hit_exists hit l :
  (∃ x, x ∈ l ∧ hit x = true) → ∃ i x, first_hit hit l i x.
Proof.
  intros H. destruct (scan_find_is_Some hit l H) as [x Hx].
  apply scan_find_first_hit in Hx as [i Hi]. eauto.
Qed.

Lemma first_hit_inj hit l i x j y :
  first_hit hit l i x → first_hit hit l j y → i = j ∧ x = y.
Proof.
  intros (Hi & Hx & Hlt) (Hj & Hy & Hlt').
  assert (i = j) as ->.
  { destruct (Nat.lt_trichotomy i j) as [H|[H|H]]; [|done|].
    - specialize (Hlt' i x H Hi). congruence.
    - specialize (Hlt j y H Hj). congruence. }
  split; congruence.
Qed.

Lemma scan_mutate_None hit f l :
  scan_find hit l = None → scan_mutate hit f l = None.
Proof.
  induction l as [|a l IH]; simpl; [done|].
  destruct (hit a); [done|]. intros H. by rewrite IH.
Qed.

Lemma scan_mutate_first_hit hit f l i x :
  first_hit hit l i x → scan_mutate hit f l = Some (<[i := f x]> l, f x).
Proof.
  revert i. induction l as [|a l IH]; intros i (Hi & Hx & Hlt).
  - by destruct i.
  - simpl. destruct i as [|i].
    + simpl in Hi. injection Hi as ->. by rewrite Hx.
    + rewrite (Hlt 0%nat a ltac:(lia) eq_refl).
      rewrite (IH i); [done|]. repeat split; auto.
      intros j y Hj Hy. apply (Hlt (S j)); [lia | done].
Qed.

(** Assignments that keep a key keep the keys of the whole list. *)
Lemma scan_mutate_keys {K} (key : A → K) hit f l l' y :
  scan_mutate hit f l = Some (l', y) →
  (∀ x, key (f x) = key x) → map key l' = map key l.
Proof.
  intros E Hk. revert l' E. induction l as [|a l IH]; intros l'; simpl; [done|].
  destruct (hit a).
  - intros [= <- _]. simpl. by rewrite Hk.
  - destruct (scan_mutate hit f l) as [[r' z]|]; [|done].
    intros [= <- <-]. simpl. by rewrite (IH r' eq_refl).
Qed.

(** Elements the loop does not stop at are left as they are. *)
Lemma scan_mutate_frame hit f l l' y i x :
  scan_mutate hit f l = Some (l', y) →
  l !! i = Some x → hit x = false → l' !! i = Some x.
Proof.
  revert l' i. induction l as [|a l IH]; intros l' i; simpl; [done|].
  destruct (hit a) eqn:Ha.
  - intros [= <- _]. destruct i as [|i]; simpl; [|done].
    intros [= ->]. congruence.
  - destruct (scan_mutate hit f l) as [[r' z]|]; [|done].
    intros [= <- <-]. destruct i as [|i]; simpl; [done|]. by apply IH.
Qed.

Lemma scan_mutated_keys {K} (key : A → K) hit f l :
  (∀ x, key (f x) = key x) → map key (scan_mutated hit f l) = map key l.
Proof.
  intros Hk. unfold scan_mutated.
  destruct (scan_mutate hit f l) as [[l' y]|] eqn:E; [|done].
  by apply (scan_mutate_keys key hit f l l' y).
Qed.

Lemma scan_mutated_frame hit f l i x :
  l !! i = Some x → hit x = false → scan_mutated hit f l !! i = Some x.
Proof.
  intros Hi Hx. unfold scan_mutated.
  destruct (scan_mutate hit f l) as [[l' y]|] eqn:E; [|done].
  by apply (scan_mutate_frame hit f l l' y).
Qed.

(** [remove] of the element the scan stopped at deletes that position. *)
Lemma py_remove_first_hit (eqb : A → A → bool) hit l i x :
  (∀ a, eqb a a = true) →
  (∀ a, eqb a x = true → hit a = true) →
  first_hit hit l i x → py_remove eqb x l = Some (delete i l).
Proof.
  intros Hrefl Himp. revert i.
  induction l as [|a l IH]; intros i (Hi & Hx & Hlt).
  - by destruct i.
  - simpl. destruct i as [|i].
    + simpl in Hi. injection Hi as ->. by rewrite Hrefl.
    + destruct (eqb a x) eqn:E.
      { apply Himp in E. rewrite (Hlt 0%nat a ltac:(lia) eq_refl) in E. done. }
      rewrite (IH i); [done|]. repeat split; auto.
      intros j y Hj Hy. apply (Hlt (S j)); [lia | done].
Qed.

Lemma forallb_delete (p : A → bool) l i :
  forallb p l = true → forallb p (delete i l) = true.
Proof.
  revert i. induction l as [|a l IH]; intros i; [by destruct i|].
  simpl. intros [Ha Hl]%andb_true_iff. destruct i as [|i]; simpl; [done|].
  rewrite Ha. by apply IH.
Qed.

Lemma all_distinct_delete (same : A → A → bool) l i :
  all_distinct same l = true → all_distinct same (delete i l) = true.
Proof.
  revert i. induction l as [|a l IH]; intros i; [by destruct i|].
  simpl. intros [Ha Hl]%andb_true_iff. destruct i as [|i]; simpl; [done|].
  rewrite forallb_delete, IH; done.
Qed.

Lemma all_distinct_snoc (same : A → A → bool) l x :
  all_distinct same (l ++ [x])
  = all_distinct same l && forallb (λ y, negb (same y x)) l.
Proof.
  induction l as [|a l IH]; simpl; [done|].
  rewrite forallb_app, IH. simpl.
  generalize (forallb (λ y, negb (same a y)) l), (all_distinct same l),
    (same a x), (forallb (λ y, negb (same y x)) l).
  by intros [] [] [] [].
Qed.

Lemma all_distinct_lookup (same : A → A → bool) l i j a b :
  all_distinct same l = true → (i < j)%nat →
  l !! i = Some a → l !! j = Some b → same a b = false.
Proof.
  revert i j. induction l as [|c l IH]; intros i j; [by destruct i|].
  simpl. intros [Hc Hl]%andb_true_iff Hij Hi Hj.
  destruct j as [|j]; [lia|]. simpl in Hj. destruct i as [|i].
  - simpl in Hi. injection Hi as ->.
    rewrite forallb_forall in Hc.
    apply list_elem_of_lookup_2, list_elem_of_In, Hc in Hj.
    by apply negb_true_iff in Hj.
  - simpl in Hi. apply (IH i j); auto. lia.
Qed.

(** The scan of [create_todo] finds nothing exactly when the new key is
    unlike every stored one. *)
Lemma scan_find_key_None {K} (same : K → K → bool) (key : A → K) l k :
  scan_find (λ x, same (key x) k) l = None
  ↔ forallb (λ y, negb (same y k)) (map key l) = true.
Proof.
  induction l as [|a l IH]; simpl; [done|].
  destruct (same (key a) k); simpl; [done | apply IH].
Qed.

Lemma scan_find_map {B} (g : A → B) hit (hit' : B → bool) l :
  (∀ x, hit' (g x) = hit x) →
  scan_find hit' (map g l) = g <$> scan_find hit l.
Proof.
  intros H. induction l as [|a l IH]; simpl; [done|].
  rewrite H. by destruct (hit a).
Qed.

Lemma scan_mutate_map {B} (g : A → B) hit (hit' : B → bool) f (f' : B → B) l :
  (∀ x, hit' (g x) = hit x) → (∀ x, f' (g x) = g (f x)) →
  scan_mutate hit' f' (map g l)
  = (λ r, (map g r.1, g r.2)) <$> scan_mutate hit f l.
Proof.
  intros H Hf. induction l as [|a l IH]; simpl; [done|].
  rewrite H. destruct (hit a); simpl; [by rewrite Hf|].
  rewrite IH. by destruct (scan_mutate hit f l) as [[r y]|].
Qed.

Lemma py_remove_map {B} (g : A → B) (eqb : A → A → bool)
    (eqb' : B → B → bool) x l :
  (∀ a b, eqb' (g a) (g b) = eqb a b) →
  py_remove eqb' (g x) (map g l) = map g <$> py_remove eqb x l.
Proof.
  intros H. induction l as [|a l IH]; simpl; [done|].
  rewrite H. destruct (eqb a x); simpl; [done|].
  rewrite IH. by destruct (py_remove eqb x l).
Qed.
End PyListFacts.

(** ** Facts about Python equality on the modelled values *)

Lemma py_eq_refl v : Flask.py_eq v v = true.
Proof.
  destruct v as [|b|n|s]; unfold Flask.py_eq; simpl; auto.
  - by destruct b.
  - apply Z.eqb_refl.
  - apply String.eqb_refl.
Qed.

Lemma py_eq_sym a b : Flask.py_eq a b = Flask.py_eq b a.
Proof.
  destruct a as [|x|m|s], b as [|y|n|t]; unfold Flask.py_eq; simpl; auto;
    try apply Z.eqb_sym.
  apply String.eqb_sym.
Qed.

Lemma py_eq_trans a b c :
  Flask.py_eq a b = true → Flask.py_eq b c = true → Flask.py_eq a c = true.
Proof.
  destruct a as [|x|m|s], b as [|y|n|t], c as [|z|k|u];
    unfold Flask.py_eq; simpl; try done;
    rewrite ?Z.eqb_eq, ?String.eqb_eq; congruence.
Qed.

Lemma py_eq_JNull v : Flask.py_eq v Flask.JNull = true ↔ v = Flask.JNull.
Proof. destruct v; unfold Flask.py_eq; simpl; split; congruence. Qed.

Lemma py_eq_JInt m n : Flask.py_eq (Flask.JInt m) (Flask.JInt n) = (m =? n).
Proof. done. Qed.

Lemma flask_Todo_eq_refl t : Flask.Todo_eq t t = true.
Proof. unfold Flask.Todo_eq. by rewrite !py_eq_refl. Qed.

Lemma flask_Todo_eq_id a x k :
  Flask.Todo_eq a x = true → Flask.py_eq (Flask.id x) k = true →
  Flask.py_eq (Flask.id a) k = true.
Proof.
  unfold Flask.Todo_eq. intros [[H _]%andb_true_iff _]%andb_true_iff Hx.
  by apply py_eq_trans with (Flask.id x).
Qed.

Lemma fastapi_Todo_eq_refl t : FastAPI.Todo_eq t t = true.
Proof.
  unfold FastAPI.Todo_eq.
  rewrite Z.eqb_refl, String.eqb_refl. by destruct (FastAPI.completed t).
Qed.

Lemma fastapi_Todo_eq_id a x :
  FastAPI.Todo_eq a x = true → FastAPI.id a = FastAPI.id x.
Proof.
  unfold FastAPI.Todo_eq. intros [[H _]%andb_true_iff _]%andb_true_iff.
  by apply Z.eqb_eq.
Qed.

(** ** What each handler does at the first record with the requested id *)

Lemma fastapi_delete_first_hit todos todo_id i todo :
  first_hit (λ t, FastAPI.id t =? todo_id) todos i todo →
  FastAPI.delete_todo todo_id todos
  = (delete i todos,
     {| FastAPI.status_code := 204;
        FastAPI.content := FastAPI.Message "Todo removed" |}).
Proof.
  intros H. unfold FastAPI.delete_todo.
  assert (scan_find (λ t, FastAPI.id t =? todo_id) todos = Some todo) as ->
    by (apply scan_find_first_hit; eauto).
  erewrite py_remove_first_hit; [done | apply fastapi_Todo_eq_refl | | apply H].
  intros a Ha. apply fastapi_Todo_eq_id in Ha. simpl. rewrite Ha.
  by destruct H as (_ & Hx & _).
Qed.

Lemma flask_delete_first_hit todos todo_id i todo :
  first_hit (λ t, Flask.py_eq (Flask.id t) (Flask.JInt todo_id)) todos i todo →
  Flask.delete_todo todo_id todos
  = (delete i todos,
     {| Flask.status_code := 204;
        Flask.content := Flask.Message "Todo removed" |}).
Proof.
  intros H. unfold Flask.delete_todo.
  assert (scan_find (λ t, Flask.py_eq (Flask.id t) (Flask.JInt todo_id)) todos
          = Some todo) as -> by (apply scan_find_first_hit; eauto).
  erewrite py_remove_first_hit; [done | apply flask_Todo_eq_refl | | apply H].
  intros a Ha. apply (flask_Todo_eq_id a todo); [done|].
  by destruct H as (_ & Hx & _).
Qed.

(** ** The ids of the stored records stay pairwise different *)

Lemma map_delete {A B} (g : A → B) (l : list A) i :
  map g (delete i l) = delete i (map g l).
Proof.
  revert i. induction l as [|a l IH]; intros [|i]; simpl; try done.
  by rewrite IH.
Qed.

Lemma fastapi_app_inv req todos :
  fastapi_inv todos → fastapi_inv (FastAPI.app req todos).1.
Proof.
  unfold fastapi_inv. intros Hinv. destruct req as [| |n|t|n t|n|n]; simpl; auto.
  - unfold FastAPI.create_todo.
    destruct (scan_find _ todos) eqn:E; simpl; [done|].
    rewrite map_app. simpl (map _ [_]). rewrite all_distinct_snoc, Hinv. simpl.
    by apply (scan_find_key_None Z.eqb FastAPI.id).
  - unfold FastAPI.update_todo.
    destruct (scan_mutate _ _ todos) as [[todos' y]|] eqn:E; simpl; [|done].
    by rewrite (scan_mutate_keys FastAPI.id _ _ _ _ _ E).
  - unfold FastAPI.toggle_complete.
    destruct (scan_mutate _ _ todos) as [[todos' y]|] eqn:E; simpl; [|done].
    by rewrite (scan_mutate_keys FastAPI.id _ _ _ _ _ E).
  - destruct (scan_find (λ t, FastAPI.id t =? n) todos) as [t|] eqn:E.
    + apply scan_find_first_hit in E as [i Hi].
      rewrite (fastapi_delete_first_hit _ _ _ _ Hi). simpl.
      rewrite map_delete. by apply all_distinct_delete.
    + unfold FastAPI.delete_todo. by rewrite E.
Qed.

Lemma flask_app_inv req todos :
  flask_inv todos → flask_inv (Flask.app req todos).1.
Proof.
  unfold flask_inv. intros Hinv.
  destruct req as [| |n|d|n d|n|n]; simpl; auto;
    try (destruct (Flask.int_converter n); [|done]); auto.
  - unfold Flask.create_todo.
    destruct (scan_find _ todos) eqn:E; simpl; [done|].
    rewrite map_app. simpl (map _ [_]). rewrite all_distinct_snoc, Hinv. simpl.
    by apply (scan_find_key_None Flask.py_eq Flask.id).
  - unfold Flask.update_todo.
    destruct (scan_mutate _ _ todos) as [[todos' y]|] eqn:E; simpl; [|done].
    by rewrite (scan_mutate_keys Flask.id _ _ _ _ _ E).
  - unfold Flask.toggle_complete.
    destruct (scan_mutate _ _ todos) as [[todos' y]|] eqn:E; simpl; [|done].
    by rewrite (scan_mutate_keys Flask.id _ _ _ _ _ E).
  - destruct (scan_find (λ t, Flask.py_eq (Flask.id t) (Flask.JInt n)) todos)
      as [t|] eqn:E.
    + apply scan_find_first_hit in E as [i Hi].
      rewrite (flask_delete_first_hit _ _ _ _ Hi). simpl.
      rewrite map_delete. by apply all_distinct_delete.
    + unfold Flask.delete_todo. by rewrite E.
Qed.

Lemma fastapi_serve_inv reqs todos :
  fastapi_inv todos → fastapi_inv (FastAPI.serve reqs todos).1.
Proof.
  revert todos. induction reqs as [|req reqs IH]; intros todos H; [done|].
  simpl. pose proof (fastapi_app_inv req todos H) as H1.
  destruct (FastAPI.app req todos) as [todos1 resp]. simpl in H1.
  specialize (IH todos1 H1).
  by destruct (FastAPI.serve reqs todos1) as [todos2 resps].
Qed.

Lemma flask_serve_inv reqs todos :
  flask_inv todos → flask_inv (Flask.serve reqs todos).1.
Proof.
  revert todos. induction reqs as [|req reqs IH]; intros todos H; [done|].
  simpl. pose proof (flask_app_inv req todos H) as H1.
  destruct (Flask.app req todos) as [todos1 resp]. simpl in H1.
  specialize (IH todos1 H1).
  by destruct (Flask.serve reqs todos1) as [todos2 resps].
Qed.

Lemma all_distinct_NoDup {A} (same : A → A → bool) (l : list A) :
  (∀ a, same a a = true) → all_distinct same l = true → NoDup l.
Proof.
  intros Hrefl. induction l as [|a l IH]; simpl; [constructor|].
  intros [Ha Hl]%andb_true_iff. constructor; [|by apply IH].
  intros Hin. rewrite forallb_forall in Ha.
  apply list_elem_of_In, Ha in Hin. rewrite Hrefl in Hin. done.
Qed.

(** C1.  In every state either program reaches from the empty list by
    serving requests, no two stored records have the same id.  For the
    FastAPI program the list of integer ids has no duplicate; for the Flask
    program the ids at two different positions are unequal in the sense of
    Python's [==], the comparison [create_todo] makes before it appends. *)
Theorem store_ids_unique :
  (∀ reqs, NoDup (map FastAPI.id (FastAPI.serve reqs []).1)) ∧
  (∀ reqs i j t u,
     (Flask.serve reqs []).1 !! i = Some t →
     (Flask.serve reqs []).1 !! j = Some u →
     i ≠ j → Flask.py_eq (Flask.id t) (Flask.id u) = false).
Proof.
  split.
  - intros reqs. apply (all_distinct_NoDup Z.eqb); [apply Z.eqb_refl|].
    by apply fastapi_serve_inv.
  - intros reqs i j t u Hi Hj Hne.
    pose proof (flask_serve_inv reqs [] eq_refl) as Hinv.
    unfold flask_inv in Hinv.
    assert (∀ i j (t u : Flask.Todo), (i < j)%nat →
              (Flask.serve reqs []).1 !! i = Some t →
              (Flask.serve reqs []).1 !! j = Some u →
              Flask.py_eq (Flask.id t) (Flask.id u) = false) as Hlt.
    { intros i' j' t' u' Hij Hi' Hj'.
      apply (all_distinct_lookup _ _ i' j' _ _ Hinv Hij);
        rewrite list_lookup_fmap; [by rewrite Hi' | by rewrite Hj']. }
    destruct (Nat.lt_trichotomy i j) as [H|[H|H]]; [eauto | done |].
    rewrite py_eq_sym. eauto.
Qed.

Lemma store_ids_unique_witness :
  NoDup
    (map FastAPI.id
       (FastAPI.serve
          [FastAPI.POST_todos
             {| FastAPI.id := 1; FastAPI.item := "milk";
                FastAPI.completed := false |};
           FastAPI.POST_todos
             {| FastAPI.id := 1; FastAPI.item := "tea";
                FastAPI.completed := false |}] []).1)
  ∧
  Flask.py_eq (Flask.JBool true) (Flask.JInt 2) = false.
Proof.
  split.
  - apply (proj1 store_ids_unique).
  - apply (proj2 store_ids_unique
             [Flask.POST_todos {["id" := Flask.JBool true]};
              Flask.POST_todos {["id" := Flask.JInt 1]};
              Flask.POST_todos {["id" := Flask.JInt 2]}]
             0%nat 1%nat
             {| Flask.id := Flask.JBool true; Flask.item := Flask.JNull;
                Flask.completed := Flask.JBool false |}
             {| Flask.id := Flask.JInt 2; Flask.item := Flask.JNull;
                Flask.completed := Flask.JBool false |});
      [vm_compute; reflexivity | vm_compute; reflexivity | lia].
Defined.

(** ** Update *)

Lemma fastapi_hit_exists todos todo_id :
  (∃ t, t ∈ todos ∧ FastAPI.id t = todo_id) →
  ∃ i t, first_hit (λ t, FastAPI.id t =? todo_id) todos i t.
Proof.
  intros (t & Ht & Hid). apply first_hit_exists. exists t.
  split; [done|]. by apply Z.eqb_eq.
Qed.

(** How the Flask rules ['/todos/<int:todo_id>'] route a request. *)
Lemma flask_routed todo_id : 0 ≤ todo_id → Flask.int_converter todo_id = true.
Proof. intros H. by apply Z.leb_le. Qed.

Lemma flask_unrouted todo_id : todo_id < 0 → Flask.int_converter todo_id = false.
Proof. intros H. by apply Z.leb_gt. Qed.

(** C2, as the code has it.  When the store holds a record with the
    requested id, an Update request rewrites the first such record in place
    and echoes it with status 200: in the FastAPI program always, in the
    Flask program when the id in the URL is not negative.  In the FastAPI
    program [item] and [completed] become those of the validated body.  In
    the Flask program each of the two becomes the value of its key in the
    body when the key is there and keeps its old value when the key is
    missing.  A Flask Update for a negative id matches no rule: 404, and the
    list is unchanged. *)
Theorem update_todo_fields :
  (∀ todos todo_id todo_obj,
     (∃ t, t ∈ todos ∧ FastAPI.id t = todo_id) →
     ∃ i t, first_hit (λ t, FastAPI.id t =? todo_id) todos i t ∧
       let t' := {| FastAPI.id := FastAPI.id t;
                    FastAPI.item := FastAPI.item todo_obj;
                    FastAPI.completed := FastAPI.completed todo_obj |} in
       FastAPI.app (FastAPI.PUT_todo todo_id todo_obj) todos
       = (<[i := t']> todos,
          {| FastAPI.status_code := 200;
             FastAPI.content := FastAPI.MessageTodo "Todo updated" t' |})) ∧
  (∀ todos todo_id data,
     0 ≤ todo_id →
     (∃ t, t ∈ todos ∧ Flask.py_eq (Flask.id t) (Flask.JInt todo_id) = true) →
     ∃ i t,
       first_hit (λ t, Flask.py_eq (Flask.id t) (Flask.JInt todo_id)) todos i t ∧
       let t' := {| Flask.id := Flask.id t;
                    Flask.item := match data !! "item" with
                                  | Some v => v
                                  | None => Flask.item t
                                  end;
                    Flask.completed := match data !! "completed" with
                                       | Some v => v
                                       | None => Flask.completed t
                                       end |} in
       Flask.app (Flask.PUT_todo todo_id data) todos
       = (<[i := t']> todos,
          {| Flask.status_code := 200;
             Flask.content := Flask.MessageTodo "Todo updated" t' |})) ∧
  (∀ todos todo_id data,
     todo_id < 0 →
     Flask.app (Flask.PUT_todo todo_id data) todos
     = (todos, {| Flask.status_code := 404;
                  Flask.content := Flask.NotFoundPage |})).
Proof.
  split; [|split].
  - intros todos todo_id todo_obj H.
    destruct (fastapi_hit_exists _ _ H) as (i & t & Hi).
    exists i, t. split; [done|]. simpl. unfold FastAPI.update_todo.
    by rewrite (scan_mutate_first_hit _ _ _ _ _ Hi).
  - intros todos todo_id data Hpos H.
    destruct (first_hit_exists _ _ H) as (i & t & Hi).
    exists i, t. split; [done|]. simpl. rewrite (flask_routed _ Hpos).
    unfold Flask.update_todo.
    by rewrite (scan_mutate_first_hit _ _ _ _ _ Hi).
  - intros todos todo_id data Hneg. simpl. by rewrite (flask_unrouted _ Hneg).
Qed.

Lemma update_todo_fields_witness :
  (∃ i t,
     first_hit (λ t, FastAPI.id t =? 1)
       [{| FastAPI.id := 1; FastAPI.item := "milk"; FastAPI.completed := false |}]
       i t ∧
     let t' := {| FastAPI.id := FastAPI.id t; FastAPI.item := "tea";
                  FastAPI.completed := true |} in
     FastAPI.app
       (FastAPI.PUT_todo 1
          {| FastAPI.id := 7; FastAPI.item := "tea"; FastAPI.completed := true |})
       [{| FastAPI.id := 1; FastAPI.item := "milk"; FastAPI.completed := false |}]
     = (<[i := t']>
          [{| FastAPI.id := 1; FastAPI.item := "milk";
              FastAPI.completed := false |}],
        {| FastAPI.status_code := 200;
           FastAPI.content := FastAPI.MessageTodo "Todo updated" t' |})) ∧
  (∃ i t,
     first_hit (λ t, Flask.py_eq (Flask.id t) (Flask.JInt 1))
       [{| Flask.id := Flask.JInt 1; Flask.item := Flask.JStr "milk";
           Flask.completed := Flask.JBool false |}] i t ∧
     let t' := {| Flask.id := Flask.id t;
                  Flask.item :=
                    match (∅ : gmap string Flask.json) !! "item" with
                    | Some v => v
                    | None => Flask.item t
                    end;
                  Flask.completed :=
                    match (∅ : gmap string Flask.json) !! "completed" with
                    | Some v => v
                    | None => Flask.completed t
                    end |} in
     Flask.app (Flask.PUT_todo 1 ∅)
       [{| Flask.id := Flask.JInt 1; Flask.item := Flask.JStr "milk";
           Flask.completed := Flask.JBool false |}]
     = (<[i := t']>
          [{| Flask.id := Flask.JInt 1; Flask.item := Flask.JStr "milk";
              Flask.completed := Flask.JBool false |}],
        {| Flask.status_code := 200;
           Flask.content := Flask.MessageTodo "Todo updated" t' |})) ∧
  Flask.app (Flask.PUT_todo (-1) ∅)
    [{| Flask.id := Flask.JInt (-1); Flask.item := Flask.JStr "milk";
        Flask.completed := Flask.JBool false |}]
  = ([{| Flask.id := Flask.JInt (-1); Flask.item := Flask.JStr "milk";
         Flask.completed := Flask.JBool false |}],
     {| Flask.status_code := 404; Flask.content := Flask.NotFoundPage |}).
Proof.
  split; [|split].
  - apply (proj1 update_todo_fields).
    eexists. split; [apply list_elem_of_here | reflexivity].
  - apply (proj1 (proj2 update_todo_fields) _ 1 ∅); [lia|].
    eexists. split; [apply list_elem_of_here | reflexivity].
  - apply (proj2 (proj2 update_todo_fields)). lia.
Defined.

(** C2 does not hold as stated for the Flask program: a body without the
    key [item] leaves the stored [item] as it was, the Update merges. *)
Lemma flask_update_keeps_absent_item :
  ({["completed" := Flask.JBool true]} : gmap string Flask.json) !! "item" = None ∧
  Flask.app (Flask.PUT_todo 1 {["completed" := Flask.JBool true]})
    [{| Flask.id := Flask.JInt 1; Flask.item := Flask.JStr "milk";
        Flask.completed := Flask.JBool false |}]
  = ([{| Flask.id := Flask.JInt 1; Flask.item := Flask.JStr "milk";
         Flask.completed := Flask.JBool true |}],
     {| Flask.status_code := 200;
        Flask.content :=
          Flask.MessageTodo "Todo updated"
            {| Flask.id := Flask.JInt 1; Flask.item := Flask.JStr "milk";
               Flask.completed := Flask.JBool true |} |}).
Proof. split; vm_compute; reflexivity. Qed.

(** ** Create with an id already stored *)

Lemma flask_create_conflict todos data :
  (∃ t, t ∈ todos ∧
        Flask.py_eq (Flask.id t) (Flask.dict_get data "id" Flask.JNull) = true) →
  Flask.create_todo data todos
  = (todos,
     {| Flask.status_code := 400;
        Flask.content := Flask.Error "Todo with this ID already exists" |}).
Proof.
  intros H. unfold Flask.create_todo.
  by destruct (scan_find_is_Some _ todos H) as [x ->].
Qed.

(** C4.  When some stored record has the id of the new one, [create_todo]
    answers 400 and the list is the one it was called with.  For the Flask
    program the id of the body is [data.get('id')] and ids are compared with
    Python's [==]. *)
Theorem create_todo_conflict :
  (∀ todos todo,
     (∃ t, t ∈ todos ∧ FastAPI.id t = FastAPI.id todo) →
     FastAPI.create_todo todo todos
     = (todos,
        {| FastAPI.status_code := 400;
           FastAPI.content := FastAPI.Detail "Todo with this ID already exists" |})) ∧
  (∀ todos data,
     (∃ t, t ∈ todos ∧
           Flask.py_eq (Flask.id t) (Flask.dict_get data "id" Flask.JNull) = true) →
     Flask.create_todo data todos
     = (todos,
        {| Flask.status_code := 400;
           Flask.content := Flask.Error "Todo with this ID already exists" |})).
Proof.
  split.
  - intros todos todo (t & Ht & Hid). unfold FastAPI.create_todo.
    destruct (scan_find_is_Some (λ e, FastAPI.id e =? FastAPI.id todo) todos)
      as [x ->]; [|done].
    exists t. split; [done|]. by apply Z.eqb_eq.
  - apply flask_create_conflict.
Qed.

Lemma create_todo_conflict_witness :
  FastAPI.create_todo
    {| FastAPI.id := 1; FastAPI.item := "tea"; FastAPI.completed := true |}
    [{| FastAPI.id := 1; FastAPI.item := "milk"; FastAPI.completed := false |}]
  = ([{| FastAPI.id := 1; FastAPI.item := "milk"; FastAPI.completed := false |}],
     {| FastAPI.status_code := 400;
        FastAPI.content := FastAPI.Detail "Todo with this ID already exists" |})
  ∧
  Flask.create_todo {["id" := Flask.JInt 1]}
    [{| Flask.id := Flask.JInt 1; Flask.item := Flask.JStr "milk";
        Flask.completed := Flask.JBool false |}]
  = ([{| Flask.id := Flask.JInt 1; Flask.item := Flask.JStr "milk";
         Flask.completed := Flask.JBool false |}],
     {| Flask.status_code := 400;
        Flask.content := Flask.Error "Todo with this ID already exists" |}).
Proof.
  split.
  - apply (proj1 create_todo_conflict).
    eexists. split; [apply list_elem_of_here | reflexivity].
  - apply (proj2 create_todo_conflict).
    eexists. split; [apply list_elem_of_here | vm_compute; reflexivity].
Defined.

(** ** Requests for an id that is not stored *)

(** C5.  When no stored record has the requested id, each of Get, Update,
    Toggle and Delete answers 404 and leaves the list as it was; the
    statement gives the whole response of each handler, and for the Flask
    program also the answer of the application, which is 404 as well when
    the URL matches no rule. *)
Theorem missing_id_not_found :
  (∀ todos todo_id todo_obj,
     (∀ t, t ∈ todos → FastAPI.id t ≠ todo_id) →
     let not_found := {| FastAPI.status_code := 404;
                         FastAPI.content := FastAPI.Detail "Todo not found" |} in
     FastAPI.app (FastAPI.GET_todo todo_id) todos = (todos, not_found) ∧
     FastAPI.app (FastAPI.PUT_todo todo_id todo_obj) todos = (todos, not_found) ∧
     FastAPI.app (FastAPI.PATCH_complete todo_id) todos = (todos, not_found) ∧
     FastAPI.app (FastAPI.DELETE_todo todo_id) todos = (todos, not_found)) ∧
  (∀ todos todo_id data,
     (∀ t, t ∈ todos → Flask.py_eq (Flask.id t) (Flask.JInt todo_id) = false) →
     let not_found := {| Flask.status_code := 404;
                         Flask.content := Flask.Error "Todo not found" |} in
     (Flask.get_todo todo_id todos = not_found ∧
      Flask.update_todo todo_id data todos = (todos, not_found) ∧
      Flask.toggle_complete todo_id todos = (todos, not_found) ∧
      Flask.delete_todo todo_id todos = (todos, not_found)) ∧
     ∀ req,
       req ∈ [Flask.GET_todo todo_id; Flask.PUT_todo todo_id data;
              Flask.PATCH_complete todo_id; Flask.DELETE_todo todo_id] →
       (Flask.app req todos).1 = todos ∧
       Flask.status_code (Flask.app req todos).2 = 404).
Proof.
  split.
  - intros todos todo_id todo_obj H.
    assert (scan_find (λ t, FastAPI.id t =? todo_id) todos = None) as E.
    { apply scan_find_None. intros t Ht. apply Z.eqb_neq. auto. }
    simpl. unfold FastAPI.get_todo, FastAPI.update_todo,
      FastAPI.toggle_complete, FastAPI.delete_todo.
    by rewrite !(scan_mutate_None _ _ _ E), E.
  - intros todos todo_id data H.
    assert (scan_find (λ t, Flask.py_eq (Flask.id t) (Flask.JInt todo_id)) todos
            = None) as E by (by apply scan_find_None).
    assert (Flask.get_todo todo_id todos
            = {| Flask.status_code := 404;
                 Flask.content := Flask.Error "Todo not found" |}) as Hg
      by (unfold Flask.get_todo; by rewrite E).
    assert (∀ d, Flask.update_todo todo_id d todos
            = (todos, {| Flask.status_code := 404;
                         Flask.content := Flask.Error "Todo not found" |})) as Hu
      by (intros d; unfold Flask.update_todo; by rewrite (scan_mutate_None _ _ _ E)).
    assert (Flask.toggle_complete todo_id todos
            = (todos, {| Flask.status_code := 404;
                         Flask.content := Flask.Error "Todo not found" |})) as Ht
      by (unfold Flask.toggle_complete; by rewrite (scan_mutate_None _ _ _ E)).
    assert (Flask.delete_todo todo_id todos
            = (todos, {| Flask.status_code := 404;
                         Flask.content := Flask.Error "Todo not found" |})) as Hd
      by (unfold Flask.delete_todo; by rewrite E).
    simpl. split; [by rewrite Hg, Hu, Ht, Hd|].
    intros req Hreq. repeat (apply elem_of_cons in Hreq as [->|Hreq]);
      [..|by apply elem_of_nil in Hreq]; simpl;
      destruct (Flask.int_converter todo_id); simpl;
      rewrite ?Hg, ?Hu, ?Ht, ?Hd; done.
Qed.

Lemma missing_id_not_found_witness :
  FastAPI.app (FastAPI.DELETE_todo 2)
    [{| FastAPI.id := 1; FastAPI.item := "milk"; FastAPI.completed := false |}]
  = ([{| FastAPI.id := 1; FastAPI.item := "milk"; FastAPI.completed := false |}],
     {| FastAPI.status_code := 404;
        FastAPI.content := FastAPI.Detail "Todo not found" |})
  ∧
  Flask.toggle_complete 2
    [{| Flask.id := Flask.JInt 1; Flask.item := Flask.JStr "milk";
        Flask.completed := Flask.JBool false |}]
  = ([{| Flask.id := Flask.JInt 1; Flask.item := Flask.JStr "milk";
         Flask.completed := Flask.JBool false |}],
     {| Flask.status_code := 404;
        Flask.content := Flask.Error "Todo not found" |}).
Proof.
  split.
  - apply (proj1 missing_id_not_found _ 2
             {| FastAPI.id := 2; FastAPI.item := ""; FastAPI.completed := false |}).
    intros t Ht. apply list_elem_of_singleton in Ht as ->. simpl. lia.
  - apply (proj2 missing_id_not_found _ 2 ∅).
    intros t Ht. apply list_elem_of_singleton in Ht as ->. reflexivity.
Defined.

(** ** A run of creates, then List *)

Lemma all_distinct_middle {A} (same : A → A → bool) (s l : list A) x :
  all_distinct same (s ++ x :: l) = true →
  forallb (λ y, negb (same y x)) s = true.
Proof.
  induction s as [|a s IH]; simpl; [done|].
  rewrite forallb_app. simpl.
  intros [[_ [Ha _]%andb_true_iff]%andb_true_iff Hs]%andb_true_iff.
  by rewrite Ha, IH.
Qed.

Lemma NoDup_all_distinct (l : list Z) : NoDup l → all_distinct Z.eqb l = true.
Proof.
  induction 1 as [|x l Hx _ IH]; simpl; [done|].
  rewrite IH, andb_true_r. apply forallb_forall. intros y Hy.
  apply negb_true_iff, Z.eqb_neq. intros ->. by apply Hx, list_elem_of_In.
Qed.

Lemma fastapi_creates_then_list created todos :
  all_distinct Z.eqb (map FastAPI.id (todos ++ created)) = true →
  FastAPI.serve (map FastAPI.POST_todos created ++ [FastAPI.GET_todos]) todos
  = (todos ++ created,
     map (λ t, {| FastAPI.status_code := 201;
                  FastAPI.content := FastAPI.MessageTodo "Todo has been added" t |})
       created
     ++ [{| FastAPI.status_code := 200;
            FastAPI.content := FastAPI.TodoList (todos ++ created) |}]).
Proof.
  revert todos. induction created as [|t created IH]; intros todos H.
  - simpl. by rewrite app_nil_r.
  - simpl. unfold FastAPI.create_todo.
    rewrite map_app in H. simpl in H.
    pose proof (all_distinct_middle _ _ _ _ H) as Hfresh.
    apply (scan_find_key_None Z.eqb FastAPI.id) in Hfresh. rewrite Hfresh.
    rewrite (IH (todos ++ [t])); rewrite <- ?app_assoc; [done|].
    by rewrite map_app.
Qed.

Lemma flask_creates_then_list bodies todos :
  all_distinct Flask.py_eq (map Flask.id (todos ++ map new_todo bodies)) = true →
  Flask.serve (map Flask.POST_todos bodies ++ [Flask.GET_todos]) todos
  = (todos ++ map new_todo bodies,
     map (λ data, {| Flask.status_code := 201;
                     Flask.content :=
                       Flask.MessageTodo "Todo has been added" (new_todo data) |})
       bodies
     ++ [{| Flask.status_code := 200;
            Flask.content := Flask.TodoList (todos ++ map new_todo bodies) |}]).
Proof.
  revert todos. induction bodies as [|d bodies IH]; intros todos H.
  - simpl. by rewrite app_nil_r.
  - simpl. unfold Flask.create_todo.
    rewrite map_app in H. simpl in H.
    pose proof (all_distinct_middle _ _ _ _ H) as Hfresh.
    apply (scan_find_key_None Flask.py_eq Flask.id) in Hfresh. rewrite Hfresh.
    fold (new_todo d).
    rewrite (IH (todos ++ [new_todo d])); rewrite <- ?app_assoc; [done|].
    by rewrite map_app.
Qed.

(** C6.  Starting from the empty list, a run of creates whose ids are
    pairwise different (for the Flask program: pairwise unequal under
    Python's [==], where the id of a body is [data.get('id')]) succeeds with
    201 at every step, and a List request after it returns exactly the
    created records in the order of creation. *)
Theorem creates_then_list :
  (∀ created,
     NoDup (map FastAPI.id created) →
     FastAPI.serve (map FastAPI.POST_todos created ++ [FastAPI.GET_todos]) []
     = (created,
        map (λ t, {| FastAPI.status_code := 201;
                     FastAPI.content :=
                       FastAPI.MessageTodo "Todo has been added" t |}) created
        ++ [{| FastAPI.status_code := 200;
               FastAPI.content := FastAPI.TodoList created |}])) ∧
  (∀ bodies,
     all_distinct Flask.py_eq
       (map (λ data, Flask.dict_get data "id" Flask.JNull) bodies) = true →
     Flask.serve (map Flask.POST_todos bodies ++ [Flask.GET_todos]) []
     = (map new_todo bodies,
        map (λ data, {| Flask.status_code := 201;
                        Flask.content :=
                          Flask.MessageTodo "Todo has been added"
                            (new_todo data) |}) bodies
        ++ [{| Flask.status_code := 200;
               Flask.content := Flask.TodoList (map new_todo bodies) |}])).
Proof.
  split.
  - intros created H. apply (fastapi_creates_then_list created []).
    by apply NoDup_all_distinct.
  - intros bodies H. apply (flask_creates_then_list bodies []).
    simpl. by rewrite map_map.
Qed.

Lemma creates_then_list_witness :
  FastAPI.serve
    (map FastAPI.POST_todos
       [{| FastAPI.id := 2; FastAPI.item := "tea"; FastAPI.completed := true |};
        {| FastAPI.id := 1; FastAPI.item := "milk"; FastAPI.completed := false |}]
     ++ [FastAPI.GET_todos]) []
  = ([{| FastAPI.id := 2; FastAPI.item := "tea"; FastAPI.completed := true |};
      {| FastAPI.id := 1; FastAPI.item := "milk"; FastAPI.completed := false |}],
     [{| FastAPI.status_code := 201;
         FastAPI.content :=
           FastAPI.MessageTodo "Todo has been added"
             {| FastAPI.id := 2; FastAPI.item := "tea";
                FastAPI.completed := true |} |};
      {| FastAPI.status_code := 201;
         FastAPI.content :=
           FastAPI.MessageTodo "Todo has been added"
             {| FastAPI.id := 1; FastAPI.item := "milk";
                FastAPI.completed := false |} |};
      {| FastAPI.status_code := 200;
         FastAPI.content :=
           FastAPI.TodoList
             [{| FastAPI.id := 2; FastAPI.item := "tea";
                 FastAPI.completed := true |};
              {| FastAPI.id := 1; FastAPI.item := "milk";
                 FastAPI.completed := false |}] |}])
  ∧
  (Flask.serve
     (map Flask.POST_todos
        [{["id" := Flask.JInt 2]}; {["id" := Flask.JInt 1]}]
      ++ [Flask.GET_todos]) []).1
  = map new_todo [{["id" := Flask.JInt 2]}; {["id" := Flask.JInt 1]}].
Proof.
  split.
  - apply (proj1 creates_then_list
             [{| FastAPI.id := 2; FastAPI.item := "tea";
                 FastAPI.completed := true |};
              {| FastAPI.id := 1; FastAPI.item := "milk";
                 FastAPI.completed := false |}]).
    apply NoDup_ListNoDup. repeat constructor; simpl; intuition lia.
  - rewrite (proj2 creates_then_list
               [{["id" := Flask.JInt 2]}; {["id" := Flask.JInt 1]}]);
      [reflexivity | vm_compute; reflexivity].
Defined.

(** ** The list after Update and Toggle *)

Lemma fastapi_update_store todo_id todo_obj todos :
  (FastAPI.update_todo todo_id todo_obj todos).1
  = scan_mutated (λ todo, FastAPI.id todo =? todo_id)
      (λ todo, {| FastAPI.id := FastAPI.id todo;
                  FastAPI.item := FastAPI.item todo_obj;
                  FastAPI.completed := FastAPI.completed todo_obj |}) todos.
Proof.
  unfold FastAPI.update_todo, scan_mutated.
  by destruct (scan_mutate _ _ todos) as [[l y]|].
Qed.

Lemma fastapi_toggle_store todo_id todos :
  (FastAPI.toggle_complete todo_id todos).1
  = scan_mutated (λ todo, FastAPI.id todo =? todo_id)
      (λ todo, {| FastAPI.id := FastAPI.id todo;
                  FastAPI.item := FastAPI.item todo;
                  FastAPI.completed := negb (FastAPI.completed todo) |}) todos.
Proof.
  unfold FastAPI.toggle_complete, scan_mutated.
  by destruct (scan_mutate _ _ todos) as [[l y]|].
Qed.

Lemma flask_update_store todo_id data todos :
  (Flask.update_todo todo_id data todos).1
  = scan_mutated (λ todo, Flask.py_eq (Flask.id todo) (Flask.JInt todo_id))
      (λ todo, {| Flask.id := Flask.id todo;
                  Flask.item := Flask.dict_get data "item" (Flask.item todo);
                  Flask.completed :=
                    Flask.dict_get data "completed" (Flask.completed todo) |})
      todos.
Proof.
  unfold Flask.update_todo, scan_mutated.
  by destruct (scan_mutate _ _ todos) as [[l y]|].
Qed.

Lemma flask_toggle_store todo_id todos :
  (Flask.toggle_complete todo_id todos).1
  = scan_mutated (λ todo, Flask.py_eq (Flask.id todo) (Flask.JInt todo_id))
      (λ todo, {| Flask.id := Flask.id todo; Flask.item := Flask.item todo;
                  Flask.completed := Flask.py_not (Flask.completed todo) |})
      todos.
Proof.
  unfold Flask.toggle_complete, scan_mutated.
  by destruct (scan_mutate _ _ todos) as [[l y]|].
Qed.

(** ** Toggle twice *)

Lemma first_hit_insert {A} (hit : A → bool) (l : list A) i x x' :
  first_hit hit l i x → hit x' = true → first_hit hit (<[i := x']> l) i x'.
Proof.
  intros (Hi & Hx & Hlt) Hx'. repeat split; [|done|].
  - apply list_lookup_insert_eq. by eapply lookup_lt_Some.
  - intros j y Hj Hy. rewrite list_lookup_insert_ne in Hy by lia. eauto.
Qed.

(** Two assignments in a row at the first hit; the second undoes the first
    when [g (f x) = x] there. *)
Lemma scan_mutated_twice {A} (hit : A → bool) (f g : A → A) (l : list A) i x :
  first_hit hit l i x → hit (f x) = true → g (f x) = x →
  scan_mutated hit g (scan_mutated hit f l) = l.
Proof.
  intros Hi Hf Hg. unfold scan_mutated at 2.
  rewrite (scan_mutate_first_hit hit f l i x Hi). unfold scan_mutated.
  rewrite (scan_mutate_first_hit hit g _ i (f x));
    [|by apply (first_hit_insert hit l i x)].
  rewrite Hg, list_insert_insert_eq, list_insert_id; [done|]. apply Hi.
Qed.

(** C7, as the code has it.  When the store holds a record with the
    requested id, two calls of [toggle_complete] in a row give back the list
    they started from: always in the FastAPI program, and in the Flask
    program when the [completed] field of the first such record holds a
    boolean. *)
Theorem toggle_twice :
  (∀ todos todo_id,
     (∃ t, t ∈ todos ∧ FastAPI.id t = todo_id) →
     (FastAPI.toggle_complete todo_id
        (FastAPI.toggle_complete todo_id todos).1).1 = todos) ∧
  (∀ todos todo_id i t b,
     first_hit (λ t, Flask.py_eq (Flask.id t) (Flask.JInt todo_id)) todos i t →
     Flask.completed t = Flask.JBool b →
     (Flask.toggle_complete todo_id
        (Flask.toggle_complete todo_id todos).1).1 = todos).
Proof.
  split.
  - intros todos todo_id H.
    destruct (fastapi_hit_exists _ _ H) as (i & t & Hi).
    rewrite !fastapi_toggle_store.
    apply (scan_mutated_twice _ _ _ _ i t Hi); [apply Hi|].
    destruct t as [n s c]. simpl. by rewrite negb_involutive.
  - intros todos todo_id i t b Hi Hb.
    rewrite !flask_toggle_store.
    apply (scan_mutated_twice _ _ _ _ i t Hi); [apply Hi|].
    destruct t as [n s c]. simpl in *. subst c. unfold Flask.py_not. simpl.
    by rewrite negb_involutive.
Qed.

Lemma toggle_twice_witness :
  (FastAPI.toggle_complete 1
     (FastAPI.toggle_complete 1
        [{| FastAPI.id := 1; FastAPI.item := "milk";
            FastAPI.completed := false |}]).1).1
  = [{| FastAPI.id := 1; FastAPI.item := "milk"; FastAPI.completed := false |}]
  ∧
  (Flask.toggle_complete 1
     (Flask.toggle_complete 1
        [{| Flask.id := Flask.JInt 1; Flask.item := Flask.JStr "milk";
            Flask.completed := Flask.JBool true |}]).1).1
  = [{| Flask.id := Flask.JInt 1; Flask.item := Flask.JStr "milk";
        Flask.completed := Flask.JBool true |}].
Proof.
  split.
  - apply (proj1 toggle_twice).
    eexists. split; [apply list_elem_of_here | reflexivity].
  - apply (proj2 toggle_twice _ 1 0%nat
             {| Flask.id := Flask.JInt 1; Flask.item := Flask.JStr "milk";
                Flask.completed := Flask.JBool true |} true); [|reflexivity].
    repeat split. intros j y Hj. lia.
Defined.

(** C7 does not hold as stated for the Flask program.  A create whose body
    has [completed] null stores the null; the first toggle makes it [True],
    the second [False], and the list is not the one before the toggles. *)
Lemma flask_toggle_twice_null :
  (Flask.serve
     [Flask.POST_todos
        (<["id" := Flask.JInt 1]>
           (<["item" := Flask.JStr "milk"]> {["completed" := Flask.JNull]}))]
     []).1
  = [{| Flask.id := Flask.JInt 1; Flask.item := Flask.JStr "milk";
        Flask.completed := Flask.JNull |}]
  ∧
  (Flask.toggle_complete 1
     (Flask.toggle_complete 1
        [{| Flask.id := Flask.JInt 1; Flask.item := Flask.JStr "milk";
            Flask.completed := Flask.JNull |}]).1).1
  = [{| Flask.id := Flask.JInt 1; Flask.item := Flask.JStr "milk";
        Flask.completed := Flask.JBool false |}]
  ∧
  (Flask.toggle_complete 1
     (Flask.toggle_complete 1
        [{| Flask.id := Flask.JInt 1; Flask.item := Flask.JStr "milk";
            Flask.completed := Flask.JNull |}]).1).1
  ≠ [{| Flask.id := Flask.JInt 1; Flask.item := Flask.JStr "milk";
        Flask.completed := Flask.JNull |}].
Proof. repeat split; try (vm_compute; reflexivity). vm_compute. discriminate. Qed.

(** ** What Update and Toggle leave alone *)

(** C8.  The id of a stored record never changes: after [update_todo],
    whatever id the body carries, and after [toggle_complete], the ids of
    the list, position by position, are the ids before the call, and every
    record whose id is not the requested one is the same record at the same
    position. *)
Theorem update_toggle_frame :
  (∀ todos todo_id todo_obj,
     let after_update := (FastAPI.update_todo todo_id todo_obj todos).1 in
     let after_toggle := (FastAPI.toggle_complete todo_id todos).1 in
     map FastAPI.id after_update = map FastAPI.id todos ∧
     map FastAPI.id after_toggle = map FastAPI.id todos ∧
     ∀ i t, todos !! i = Some t → FastAPI.id t ≠ todo_id →
            after_update !! i = Some t ∧ after_toggle !! i = Some t) ∧
  (∀ todos todo_id data,
     let after_update := (Flask.update_todo todo_id data todos).1 in
     let after_toggle := (Flask.toggle_complete todo_id todos).1 in
     map Flask.id after_update = map Flask.id todos ∧
     map Flask.id after_toggle = map Flask.id todos ∧
     ∀ i t, todos !! i = Some t →
            Flask.py_eq (Flask.id t) (Flask.JInt todo_id) = false →
            after_update !! i = Some t ∧ after_toggle !! i = Some t).
Proof.
  split.
  - intros todos todo_id todo_obj. simpl.
    rewrite fastapi_update_store, fastapi_toggle_store.
    rewrite !(scan_mutated_keys FastAPI.id) by done.
    do 2 (split; [done|]). intros i t Hi Hne. apply Z.eqb_neq in Hne.
    split; by apply scan_mutated_frame.
  - intros todos todo_id data. simpl.
    rewrite flask_update_store, flask_toggle_store.
    rewrite !(scan_mutated_keys Flask.id) by done.
    do 2 (split; [done|]). intros i t Hi Hne.
    split; by apply scan_mutated_frame.
Qed.

Lemma update_toggle_frame_witness :
  (FastAPI.update_todo 1
     {| FastAPI.id := 2; FastAPI.item := "tea"; FastAPI.completed := true |}
     [{| FastAPI.id := 1; FastAPI.item := "milk"; FastAPI.completed := false |};
      {| FastAPI.id := 2; FastAPI.item := "eggs"; FastAPI.completed := false |}]).1
  !! 1%nat
  = Some {| FastAPI.id := 2; FastAPI.item := "eggs"; FastAPI.completed := false |}
  ∧
  (Flask.toggle_complete 1
     [{| Flask.id := Flask.JInt 1; Flask.item := Flask.JStr "milk";
         Flask.completed := Flask.JBool false |};
      {| Flask.id := Flask.JInt 2; Flask.item := Flask.JStr "eggs";
         Flask.completed := Flask.JBool false |}]).1
  !! 1%nat
  = Some {| Flask.id := Flask.JInt 2; Flask.item := Flask.JStr "eggs";
            Flask.completed := Flask.JBool false |}.
Proof.
  split.
  - apply (proj1 update_toggle_frame
             [{| FastAPI.id := 1; FastAPI.item := "milk";
                 FastAPI.completed := false |};
              {| FastAPI.id := 2; FastAPI.item := "eggs";
                 FastAPI.completed := false |}] 1); [reflexivity | simpl; lia].
  - apply (proj2 update_toggle_frame
             [{| Flask.id := Flask.JInt 1; Flask.item := Flask.JStr "milk";
                 Flask.completed := Flask.JBool false |};
              {| Flask.id := Flask.JInt 2; Flask.item := Flask.JStr "eggs";
                 Flask.completed := Flask.JBool false |}] 1 ∅);
      reflexivity.
Defined.

(** ** A Flask create without an id *)

(** C10.  The Flask [create_todo] does not check that the body has its
    keys.  When the body has no key [id] and no stored record has the id
    [None], it answers 201 and appends a record whose id is [None], whose
    [item] is the body's or [None], and whose [completed] is the body's or
    [False]; any further create without [id] on the resulting list answers
    400 and changes nothing. *)
Theorem flask_create_without_id :
  ∀ todos data,
    data !! "id" = None →
    (∀ t, t ∈ todos → Flask.id t ≠ Flask.JNull) →
    let t0 := {| Flask.id := Flask.JNull;
                 Flask.item := match data !! "item" with
                               | Some v => v
                               | None => Flask.JNull
                               end;
                 Flask.completed := match data !! "completed" with
                                    | Some v => v
                                    | None => Flask.JBool false
                                    end |} in
    Flask.create_todo data todos
    = (todos ++ [t0],
       {| Flask.status_code := 201;
          Flask.content := Flask.MessageTodo "Todo has been added" t0 |}) ∧
    ∀ data',
      data' !! "id" = None →
      Flask.create_todo data' (todos ++ [t0])
      = (todos ++ [t0],
         {| Flask.status_code := 400;
            Flask.content := Flask.Error "Todo with this ID already exists" |}).
Proof.
  intros todos data Hid Hnone. simpl. split.
  - unfold Flask.create_todo, Flask.dict_get. rewrite Hid.
    assert (scan_find (λ e, Flask.py_eq (Flask.id e) Flask.JNull) todos = None)
      as -> ; [|done].
    apply scan_find_None. intros t Ht.
    destruct (Flask.py_eq (Flask.id t) Flask.JNull) eqn:E; [|done].
    apply py_eq_JNull in E. by apply Hnone in Ht.
  - intros data' Hid'. apply flask_create_conflict.
    eexists. split; [apply elem_of_app; right; apply list_elem_of_here|].
    unfold Flask.dict_get. by rewrite Hid'.
Qed.

Lemma flask_create_without_id_witness :
  Flask.create_todo {["item" := Flask.JStr "milk"]} []
  = ([{| Flask.id := Flask.JNull; Flask.item := Flask.JStr "milk";
         Flask.completed := Flask.JBool false |}],
     {| Flask.status_code := 201;
        Flask.content :=
          Flask.MessageTodo "Todo has been added"
            {| Flask.id := Flask.JNull; Flask.item := Flask.JStr "milk";
               Flask.completed := Flask.JBool false |} |})
  ∧
  Flask.create_todo ∅
    [{| Flask.id := Flask.JNull; Flask.item := Flask.JStr "milk";
        Flask.completed := Flask.JBool false |}]
  = ([{| Flask.id := Flask.JNull; Flask.item := Flask.JStr "milk";
         Flask.completed := Flask.JBool false |}],
     {| Flask.status_code := 400;
        Flask.content := Flask.Error "Todo with this ID already exists" |}).
Proof.
  assert (({["item" := Flask.JStr "milk"]} : gmap string Flask.json) !! "id"
          = None) as Hid by (vm_compute; reflexivity).
  assert (∀ t : Flask.Todo, t ∈ [] → Flask.id t ≠ Flask.JNull) as Hnone
    by (intros t Ht; by apply elem_of_nil in Ht).
  destruct (flask_create_without_id [] _ Hid Hnone) as [Hfirst Hsecond].
  split.
  - rewrite Hfirst. vm_compute. reflexivity.
  - assert ((∅ : gmap string Flask.json) !! "id" = None) as Hid'
      by (vm_compute; reflexivity).
    specialize (Hsecond ∅ Hid').
    vm_compute in Hsecond. vm_compute. exact Hsecond.
Defined.

(** ** The two programs on the same requests *)

Lemma full_body_id todo dflt :
  Flask.dict_get (full_body todo) "id" dflt = Flask.JInt (FastAPI.id todo).
Proof. unfold Flask.dict_get, full_body. by rewrite lookup_insert_eq. Qed.

Lemma full_body_item todo dflt :
  Flask.dict_get (full_body todo) "item" dflt = Flask.JStr (FastAPI.item todo).
Proof.
  unfold Flask.dict_get, full_body.
  rewrite lookup_insert_ne by done. by rewrite lookup_insert_eq.
Qed.

Lemma full_body_completed todo dflt :
  Flask.dict_get (full_body todo) "completed" dflt
  = Flask.JBool (FastAPI.completed todo).
Proof.
  unfold Flask.dict_get, full_body.
  rewrite !lookup_insert_ne by done. by rewrite lookup_insert_eq.
Qed.

Lemma same_todo_hit todo_id t :
  Flask.py_eq (Flask.id (same_todo t)) (Flask.JInt todo_id)
  = (FastAPI.id t =? todo_id).
Proof. done. Qed.

Lemma same_todo_eq a b :
  Flask.Todo_eq (same_todo a) (same_todo b) = FastAPI.Todo_eq a b.
Proof.
  unfold Flask.Todo_eq, FastAPI.Todo_eq, Flask.py_eq. simpl.
  by destruct (FastAPI.completed a), (FastAPI.completed b).
Qed.

(** One request whose URL both programs route: the Flask list stays the
    image of the FastAPI list and the status codes agree. *)
Lemma same_step req todos :
  path_ok req = true →
  (Flask.app (to_flask req) (map same_todo todos)).1
  = map same_todo (FastAPI.app req todos).1 ∧
  Flask.status_code (Flask.app (to_flask req) (map same_todo todos)).2
  = FastAPI.status_code (FastAPI.app req todos).2.
Proof.
  intros Hok.
  destruct req as [| |n|t|n t|n|n]; simpl in *; unfold path_ok in Hok;
    simpl in Hok; try (unfold Flask.int_converter; rewrite Hok); try done.
  - unfold Flask.get_todo, FastAPI.get_todo.
    rewrite (scan_find_map same_todo (λ t, FastAPI.id t =? n)) by done.
    by destruct (scan_find _ todos).
  - unfold Flask.create_todo, FastAPI.create_todo.
    rewrite full_body_id, full_body_item, full_body_completed.
    rewrite (scan_find_map same_todo (λ e, FastAPI.id e =? FastAPI.id t))
      by done.
    destruct (scan_find _ todos); simpl; [done|]. by rewrite map_app.
  - unfold Flask.update_todo, FastAPI.update_todo.
    rewrite (scan_mutate_map same_todo (λ t, FastAPI.id t =? n) _
               (λ todo, {| FastAPI.id := FastAPI.id todo;
                           FastAPI.item := FastAPI.item t;
                           FastAPI.completed := FastAPI.completed t |})).
    + by destruct (scan_mutate _ _ todos) as [[l y]|].
    + done.
    + intros x. by rewrite full_body_item, full_body_completed.
  - unfold Flask.toggle_complete, FastAPI.toggle_complete.
    rewrite (scan_mutate_map same_todo (λ t, FastAPI.id t =? n) _
               (λ todo, {| FastAPI.id := FastAPI.id todo;
                           FastAPI.item := FastAPI.item todo;
                           FastAPI.completed := negb (FastAPI.completed todo) |}));
      [|done..].
    by destruct (scan_mutate _ _ todos) as [[l y]|].
  - unfold Flask.delete_todo, FastAPI.delete_todo.
    rewrite (scan_find_map same_todo (λ t, FastAPI.id t =? n)) by done.
    destruct (scan_find _ todos) as [x|]; simpl; [|done].
    rewrite (py_remove_map same_todo FastAPI.Todo_eq) by apply same_todo_eq.
    by destruct (py_remove _ x todos).
Qed.

Lemma same_run reqs todos :
  forallb path_ok reqs = true →
  (Flask.serve (map to_flask reqs) (map same_todo todos)).1
  = map same_todo (FastAPI.serve reqs todos).1 ∧
  map Flask.status_code (Flask.serve (map to_flask reqs) (map same_todo todos)).2
  = map FastAPI.status_code (FastAPI.serve reqs todos).2.
Proof.
  revert todos. induction reqs as [|req reqs IH]; intros todos; [done|].
  simpl. intros [Hreq Hreqs]%andb_true_iff.
  destruct (same_step req todos Hreq) as [Hs Hc].
  destruct (Flask.app (to_flask req) (map same_todo todos)) as [fl1 fr].
  destruct (FastAPI.app req todos) as [fa1 ar]. simpl in Hs, Hc. subst fl1.
  destruct (IH fa1 Hreqs) as [Hs' Hc'].
  destruct (Flask.serve (map to_flask reqs) (map same_todo fa1)) as [fl2 frs].
  destruct (FastAPI.serve reqs fa1) as [fa2 ars]. simpl in *.
  by rewrite Hs', Hc, Hc'.
Qed.

(** C3, as the code has it.  On every sequence of requests with complete
    Todo bodies in which no URL carries a negative id, the two programs,
    started on the empty list, end with the same records in the same order
    and answer each request with the same status code (Delete answers 204
    in both). *)
Theorem same_behaviour :
  ∀ reqs,
    forallb path_ok reqs = true →
    (Flask.serve (map to_flask reqs) []).1
    = map same_todo (FastAPI.serve reqs []).1 ∧
    map Flask.status_code (Flask.serve (map to_flask reqs) []).2
    = map FastAPI.status_code (FastAPI.serve reqs []).2.
Proof. intros reqs H. apply (same_run reqs [] H). Qed.

Lemma same_behaviour_witness :
  map Flask.status_code
    (Flask.serve
       (map to_flask
          [FastAPI.POST_todos
             {| FastAPI.id := 1; FastAPI.item := "milk";
                FastAPI.completed := false |};
           FastAPI.PATCH_complete 1; FastAPI.DELETE_todo 1; FastAPI.GET_todo 1])
       []).2
  = [201; 200; 204; 404].
Proof.
  rewrite (proj2 (same_behaviour
    [FastAPI.POST_todos
       {| FastAPI.id := 1; FastAPI.item := "milk"; FastAPI.completed := false |};
     FastAPI.PATCH_complete 1; FastAPI.DELETE_todo 1; FastAPI.GET_todo 1]
    eq_refl)).
  reflexivity.
Defined.

(** C3 does not hold as stated.  A record with a negative id can be created
    in both programs, but only the FastAPI program can be asked for it: the
    Flask rule ['/todos/<int:todo_id>'] does not match the URL, so the same
    Get succeeds in one program and fails in the other. *)
Lemma flask_rejects_negative_path :
  map (λ r, succeeded (FastAPI.status_code r))
    (FastAPI.serve
       [FastAPI.POST_todos
          {| FastAPI.id := -1; FastAPI.item := "milk";
             FastAPI.completed := false |};
        FastAPI.GET_todo (-1)] []).2
  = [true; true]
  ∧
  map (λ r, succeeded (Flask.status_code r))
    (Flask.serve
       (map to_flask
          [FastAPI.POST_todos
             {| FastAPI.id := -1; FastAPI.item := "milk";
                FastAPI.completed := false |};
           FastAPI.GET_todo (-1)]) []).2
  = [true; false].
Proof. split; vm_compute; reflexivity. Qed.

(** ** The counts of the load-test summary *)

(** X16.  The printed total is the printed successes plus the printed
    failures, and neither count is negative. *)
Lemma summary_counts_split metrics :
  let '(total, ok, failed) := Locust.summary_counts metrics in
  total = ok + failed ∧ 0 ≤ ok ∧ 0 ≤ failed.
Proof.
  unfold Locust.summary_counts, Locust.successful_requests.
  pose proof (List.filter_length_le Locust.success metrics). lia.
Qed.

(** ** More facts about the list idioms *)

Section PyListMore.
Context {A : Type}.
Implicit Types (hit : A → bool) (f g : A → A) (l : list A).

Lemma scan_find_snoc hit l x :
  scan_find hit l = None → hit x = true → scan_find hit (l ++ [x]) = Some x.
Proof.
  induction l as [|a l IH]; simpl; intros Hn Hx; [by rewrite Hx|].
  destruct (hit a); [done | by apply IH].
Qed.

Lemma first_hit_snoc hit l x :
  scan_find hit l = None → hit x = true →
  first_hit hit (l ++ [x]) (length l) x.
Proof.
  intros Hn Hx. repeat split; [|done|].
  - by rewrite list_lookup_middle.
  - intros j y Hj Hy. rewrite lookup_app_l in Hy by done.
    rewrite scan_find_None in Hn. by eapply Hn, list_elem_of_lookup_2.
Qed.

(** After the assignments the scan stops at the record it assigned to. *)
Lemma scan_find_after_mutate hit f l l' y :
  scan_mutate hit f l = Some (l', y) →
  (∀ x, hit (f x) = hit x) → scan_find hit l' = Some y.
Proof.
  intros E Hf. revert l' E. induction l as [|a l IH]; intros l'; simpl; [done|].
  destruct (hit a) eqn:Ha.
  - intros [= <- <-]. simpl. by rewrite Hf, Ha.
  - destruct (scan_mutate hit f l) as [[r z]|]; [|done].
    intros [= <- <-]. simpl. rewrite Ha. by apply IH.
Qed.

(** A second loop over the list the first loop left. *)
Lemma scan_mutate_compose hit f g l :
  (∀ x, hit (f x) = hit x) →
  scan_mutate hit g (scan_mutated hit f l) = scan_mutate hit (g ∘ f) l.
Proof.
  intros Hf. unfold scan_mutated.
  induction l as [|a l IH]; simpl; [done|].
  destruct (hit a) eqn:Ha; simpl.
  - by rewrite Hf, Ha.
  - destruct (scan_mutate hit f l) as [[r z]|] eqn:E; simpl; rewrite Ha.
    + by rewrite IH.
    + by rewrite <- IH.
Qed.

Lemma scan_mutate_ext hit f g l :
  (∀ x, f x = g x) → scan_mutate hit f l = scan_mutate hit g l.
Proof.
  intros H. induction l as [|a l IH]; simpl; [done|].
  by rewrite H, IH.
Qed.

Lemma scan_mutated_id hit f l : (∀ x, f x = x) → scan_mutated hit f l = l.
Proof.
  intros H. unfold scan_mutated. induction l as [|a l IH]; simpl; [done|].
  destruct (hit a); [by rewrite H|].
  destruct (scan_mutate hit f l) as [[r z]|]; [by rewrite IH | done].
Qed.

(** When the hits are pairwise [same]-different, nothing after the first hit
    is a hit, so deleting it leaves no hit. *)
Lemma scan_find_delete_first_hit {K} (same : K → K → bool) (key : A → K)
    (k : K) l i x :
  (∀ a b, same a k = true → same b k = true → same a b = true) →
  all_distinct same (map key l) = true →
  first_hit (λ y, same (key y) k) l i x →
  scan_find (λ y, same (key y) k) (delete i l) = None.
Proof.
  intros Hk Hd (Hi & Hx & Hlt). apply scan_find_None. intros y Hy.
  apply list_elem_of_lookup in Hy as [j Hj].
  destruct (decide (j < i)%nat) as [Hji|Hji].
  - rewrite list_lookup_delete_lt in Hj by done. eauto.
  - rewrite list_lookup_delete_ge in Hj by lia.
    destruct (same (key y) k) eqn:E; [|done].
    assert (same (key x) (key y) = false) as Hne.
    { apply (all_distinct_lookup same (map key l) i (S j)); [done | lia | |];
        rewrite list_lookup_fmap; [by rewrite Hi | by rewrite Hj]. }
    rewrite (Hk _ _ Hx E) in Hne. done.
Qed.
End PyListMore.

(** ** The branches of the handlers *)

Lemma scan_mutate_cases {A} (hit : A → bool) (f : A → A) (l : list A) :
  (scan_find hit l = None ∧ scan_mutate hit f l = None) ∨
  (∃ i x, first_hit hit l i x ∧
          scan_mutate hit f l = Some (<[i := f x]> l, f x)).
Proof.
  destruct (scan_find hit l) as [x|] eqn:E.
  - right. apply scan_find_first_hit in E as [i Hi]. exists i, x.
    split; [done | by apply scan_mutate_first_hit].
  - left. split; [done | by apply scan_mutate_None].
Qed.

Lemma scan_mutated_compose {A} (hit : A → bool) (f g : A → A) (l : list A) :
  (∀ x, hit (f x) = hit x) →
  scan_mutated hit g (scan_mutated hit f l) = scan_mutated hit (g ∘ f) l.
Proof.
  intros Hf. unfold scan_mutated at 1. rewrite scan_mutate_compose by done.
  unfold scan_mutated.
  destruct (scan_mutate_cases hit (g ∘ f) l) as [[Hn ->]|(i & x & _ & ->)];
    [|done].
  by rewrite (scan_mutate_None hit f l Hn).
Qed.

Lemma fastapi_delete_cases todo_id todos :
  (scan_find (λ t, FastAPI.id t =? todo_id) todos = None ∧
   FastAPI.delete_todo todo_id todos
   = (todos, {| FastAPI.status_code := 404;
                FastAPI.content := FastAPI.Detail "Todo not found" |})) ∨
  (∃ i t, first_hit (λ t, FastAPI.id t =? todo_id) todos i t ∧
          FastAPI.delete_todo todo_id todos
          = (delete i todos,
             {| FastAPI.status_code := 204;
                FastAPI.content := FastAPI.Message "Todo removed" |})).
Proof.
  destruct (scan_find (λ t, FastAPI.id t =? todo_id) todos) as [x|] eqn:E.
  - right. apply scan_find_first_hit in E as [i Hi]. exists i, x.
    split; [done | by apply (fastapi_delete_first_hit _ _ _ x)].
  - left. split; [done|]. unfold FastAPI.delete_todo. by rewrite E.
Qed.

Lemma flask_delete_cases todo_id todos :
  (scan_find (λ t, Flask.py_eq (Flask.id t) (Flask.JInt todo_id)) todos = None ∧
   Flask.delete_todo todo_id todos
   = (todos, {| Flask.status_code := 404;
                Flask.content := Flask.Error "Todo not found" |})) ∨
  (∃ i t,
     first_hit (λ t, Flask.py_eq (Flask.id t) (Flask.JInt todo_id)) todos i t ∧
     Flask.delete_todo todo_id todos
     = (delete i todos,
        {| Flask.status_code := 204;
           Flask.content := Flask.Message "Todo removed" |})).
Proof.
  destruct (scan_find (λ t, Flask.py_eq (Flask.id t) (Flask.JInt todo_id)) todos)
    as [x|] eqn:E.
  - right. apply scan_find_first_hit in E as [i Hi]. exists i, x.
    split; [done | by apply (flask_delete_first_hit _ _ _ x)].
  - left. split; [done|]. unfold Flask.delete_todo. by rewrite E.
Qed.

Lemma flask_hit_trans a b k :
  Flask.py_eq a k = true → Flask.py_eq b k = true → Flask.py_eq a b = true.
Proof.
  intros Ha Hb. apply py_eq_trans with k; [done|]. by rewrite py_eq_sym.
Qed.

(** ** Get and Delete of a stored id *)

(** X1.  When a record with the requested id is stored, a Get request is
    answered 200 with the first record of the list that has the id, and the
    list stays as it is: in the FastAPI program for every id, in the Flask
    program for every id that is not negative (the only ids its rule
    ['/todos/<int:todo_id>'] lets through). *)
Theorem get_todo_found :
  (∀ todos todo_id,
     (∃ t, t ∈ todos ∧ FastAPI.id t = todo_id) →
     ∃ i t, first_hit (λ t, FastAPI.id t =? todo_id) todos i t ∧
       FastAPI.app (FastAPI.GET_todo todo_id) todos
       = (todos, {| FastAPI.status_code := 200;
                    FastAPI.content := FastAPI.OneTodo t |})) ∧
  (∀ todos todo_id,
     0 ≤ todo_id →
     (∃ t, t ∈ todos ∧ Flask.py_eq (Flask.id t) (Flask.JInt todo_id) = true) →
     ∃ i t,
       first_hit (λ t, Flask.py_eq (Flask.id t) (Flask.JInt todo_id)) todos i t ∧
       Flask.app (Flask.GET_todo todo_id) todos
       = (todos, {| Flask.status_code := 200;
                    Flask.content := Flask.OneTodo t |})).
Proof.
  split.
  - intros todos todo_id H.
    destruct (fastapi_hit_exists _ _ H) as (i & t & Hi). exists i, t.
    split; [done|]. simpl. unfold FastAPI.get_todo.
    assert (scan_find (λ t, FastAPI.id t =? todo_id) todos = Some t) as ->
      by (apply scan_find_first_hit; eauto). done.
  - intros todos todo_id Hpos H.
    destruct (first_hit_exists _ _ H) as (i & t & Hi). exists i, t.
    split; [done|]. simpl. rewrite (flask_routed _ Hpos). unfold Flask.get_todo.
    assert (scan_find (λ t, Flask.py_eq (Flask.id t) (Flask.JInt todo_id)) todos
            = Some t) as -> by (apply scan_find_first_hit; eauto). done.
Qed.

Lemma get_todo_found_witness :
  (∃ i t,
     first_hit (λ t, FastAPI.id t =? 1)
       [{| FastAPI.id := 2; FastAPI.item := "tea"; FastAPI.completed := true |};
        {| FastAPI.id := 1; FastAPI.item := "milk"; FastAPI.completed := false |}]
       i t ∧
     FastAPI.app (FastAPI.GET_todo 1)
       [{| FastAPI.id := 2; FastAPI.item := "tea"; FastAPI.completed := true |};
        {| FastAPI.id := 1; FastAPI.item := "milk"; FastAPI.completed := false |}]
     = ([{| FastAPI.id := 2; FastAPI.item := "tea"; FastAPI.completed := true |};
         {| FastAPI.id := 1; FastAPI.item := "milk";
            FastAPI.completed := false |}],
        {| FastAPI.status_code := 200; FastAPI.content := FastAPI.OneTodo t |})) ∧
  (∃ i t,
     first_hit (λ t, Flask.py_eq (Flask.id t) (Flask.JInt 1))
       [{| Flask.id := Flask.JBool true; Flask.item := Flask.JNull;
           Flask.completed := Flask.JBool false |}] i t ∧
     Flask.app (Flask.GET_todo 1)
       [{| Flask.id := Flask.JBool true; Flask.item := Flask.JNull;
           Flask.completed := Flask.JBool false |}]
     = ([{| Flask.id := Flask.JBool true; Flask.item := Flask.JNull;
            Flask.completed := Flask.JBool false |}],
        {| Flask.status_code := 200; Flask.content := Flask.OneTodo t |})).
Proof.
  split.
  - apply (proj1 get_todo_found). eexists.
    split; [apply list_elem_of_further, list_elem_of_here | reflexivity].
  - apply (proj2 get_todo_found); [lia|]. eexists.
    split; [apply list_elem_of_here | reflexivity].
Defined.

(** X2.  When a record with the requested id is stored, a Delete request
    is answered 204 and the list afterwards is the list before without the
    first record that has the id: one record fewer, the others in their
    order.  This holds in the FastAPI program for every id and in the Flask
    program for every id that is not negative. *)
Theorem delete_todo_removes_first :
  (∀ todos todo_id,
     (∃ t, t ∈ todos ∧ FastAPI.id t = todo_id) →
     ∃ i t, first_hit (λ t, FastAPI.id t =? todo_id) todos i t ∧
       FastAPI.app (FastAPI.DELETE_todo todo_id) todos
       = (delete i todos,
          {| FastAPI.status_code := 204;
             FastAPI.content := FastAPI.Message "Todo removed" |}) ∧
       S (length (FastAPI.app (FastAPI.DELETE_todo todo_id) todos).1)
       = length todos) ∧
  (∀ todos todo_id,
     0 ≤ todo_id →
     (∃ t, t ∈ todos ∧ Flask.py_eq (Flask.id t) (Flask.JInt todo_id) = true) →
     ∃ i t,
       first_hit (λ t, Flask.py_eq (Flask.id t) (Flask.JInt todo_id)) todos i t ∧
       Flask.app (Flask.DELETE_todo todo_id) todos
       = (delete i todos,
          {| Flask.status_code := 204;
             Flask.content := Flask.Message "Todo removed" |}) ∧
       S (length (Flask.app (Flask.DELETE_todo todo_id) todos).1)
       = length todos).
Proof.
  split.
  - intros todos todo_id H.
    destruct (fastapi_hit_exists _ _ H) as (i & t & Hi). exists i, t. simpl.
    rewrite (fastapi_delete_first_hit _ _ _ _ Hi). simpl.
    repeat split; try apply Hi.
    destruct Hi as (Hi & _). apply lookup_lt_Some in Hi.
    rewrite length_delete by (by apply lookup_lt_is_Some_2). lia.
  - intros todos todo_id Hpos H.
    destruct (first_hit_exists _ _ H) as (i & t & Hi). exists i, t. simpl.
    rewrite (flask_routed _ Hpos).
    rewrite (flask_delete_first_hit _ _ _ _ Hi). simpl.
    repeat split; try apply Hi.
    destruct Hi as (Hi & _). apply lookup_lt_Some in Hi.
    rewrite length_delete by (by apply lookup_lt_is_Some_2). lia.
Qed.

Lemma delete_todo_removes_first_witness :
  (∃ i t,
     first_hit (λ t, FastAPI.id t =? 1)
       [{| FastAPI.id := 2; FastAPI.item := "tea"; FastAPI.completed := true |};
        {| FastAPI.id := 1; FastAPI.item := "milk"; FastAPI.completed := false |}]
       i t ∧
     FastAPI.app (FastAPI.DELETE_todo 1)
       [{| FastAPI.id := 2; FastAPI.item := "tea"; FastAPI.completed := true |};
        {| FastAPI.id := 1; FastAPI.item := "milk"; FastAPI.completed := false |}]
     = (delete i
          [{| FastAPI.id := 2; FastAPI.item := "tea";
              FastAPI.completed := true |};
           {| FastAPI.id := 1; FastAPI.item := "milk";
              FastAPI.completed := false |}],
        {| FastAPI.status_code := 204;
           FastAPI.content := FastAPI.Message "Todo removed" |}) ∧
     S (length
          (FastAPI.app (FastAPI.DELETE_todo 1)
             [{| FastAPI.id := 2; FastAPI.item := "tea";
                 FastAPI.completed := true |};
              {| FastAPI.id := 1; FastAPI.item := "milk";
                 FastAPI.completed := false |}]).1)
     = 2%nat) ∧
  (∃ i t,
     first_hit (λ t, Flask.py_eq (Flask.id t) (Flask.JInt 1))
       [{| Flask.id := Flask.JInt 1; Flask.item := Flask.JStr "milk";
           Flask.completed := Flask.JBool false |}] i t ∧
     Flask.app (Flask.DELETE_todo 1)
       [{| Flask.id := Flask.JInt 1; Flask.item := Flask.JStr "milk";
           Flask.completed := Flask.JBool false |}]
     = (delete i
          [{| Flask.id := Flask.JInt 1; Flask.item := Flask.JStr "milk";
              Flask.completed := Flask.JBool false |}],
        {| Flask.status_code := 204;
           Flask.content := Flask.Message "Todo removed" |}) ∧
     S (length
          (Flask.app (Flask.DELETE_todo 1)
             [{| Flask.id := Flask.JInt 1; Flask.item := Flask.JStr "milk";
                 Flask.completed := Flask.JBool false |}]).1)
     = 1%nat).
Proof.
  split.
  - apply (proj1 delete_todo_removes_first). eexists.
    split; [apply list_elem_of_further, list_elem_of_here | reflexivity].
  - apply (proj2 delete_todo_removes_first); [lia|]. eexists.
    split; [apply list_elem_of_here | reflexivity].
Defined.

(** X3.  In a list whose ids are pairwise different, as every reachable list
    is, the id is gone after [delete_todo]: a Get for it answers 404 and a
    second Delete answers 404 and changes nothing.  (With two records of the
    same id only the first would be removed.) *)
Theorem delete_then_not_found :
  (∀ todos todo_id,
     NoDup (map FastAPI.id todos) →
     let after := (FastAPI.delete_todo todo_id todos).1 in
     let not_found := {| FastAPI.status_code := 404;
                         FastAPI.content := FastAPI.Detail "Todo not found" |} in
     FastAPI.get_todo todo_id after = not_found ∧
     FastAPI.delete_todo todo_id after = (after, not_found)) ∧
  (∀ todos todo_id,
     all_distinct Flask.py_eq (map Flask.id todos) = true →
     let after := (Flask.delete_todo todo_id todos).1 in
     let not_found := {| Flask.status_code := 404;
                         Flask.content := Flask.Error "Todo not found" |} in
     Flask.get_todo todo_id after = not_found ∧
     Flask.delete_todo todo_id after = (after, not_found)).
Proof.
  split.
  - intros todos todo_id Hnd. simpl.
    assert (scan_find (λ t, FastAPI.id t =? todo_id)
              (FastAPI.delete_todo todo_id todos).1 = None) as E.
    { destruct (fastapi_delete_cases todo_id todos)
        as [[E ->]|(i & t & Hi & ->)]; simpl; [done|].
      apply (scan_find_delete_first_hit Z.eqb FastAPI.id todo_id _ _ t);
        [|by apply NoDup_all_distinct|done].
      intros a b Ha Hb. apply Z.eqb_eq in Ha, Hb. apply Z.eqb_eq. congruence. }
    unfold FastAPI.get_todo. unfold FastAPI.delete_todo at 2. by rewrite E.
  - intros todos todo_id Hd. simpl.
    assert (scan_find (λ t, Flask.py_eq (Flask.id t) (Flask.JInt todo_id))
              (Flask.delete_todo todo_id todos).1 = None) as E.
    { destruct (flask_delete_cases todo_id todos)
        as [[E ->]|(i & t & Hi & ->)]; simpl; [done|].
      apply (scan_find_delete_first_hit Flask.py_eq Flask.id
               (Flask.JInt todo_id) _ _ t); [|done..].
      intros a b. apply flask_hit_trans. }
    unfold Flask.get_todo. unfold Flask.delete_todo at 2. by rewrite E.
Qed.

Lemma delete_then_not_found_witness :
  FastAPI.get_todo 1
    (FastAPI.delete_todo 1
       [{| FastAPI.id := 1; FastAPI.item := "milk";
           FastAPI.completed := false |}]).1
  = {| FastAPI.status_code := 404;
       FastAPI.content := FastAPI.Detail "Todo not found" |}
  ∧
  Flask.get_todo 1
    (Flask.delete_todo 1
       [{| Flask.id := Flask.JInt 1; Flask.item := Flask.JStr "milk";
           Flask.completed := Flask.JBool false |}]).1
  = {| Flask.status_code := 404; Flask.content := Flask.Error "Todo not found" |}.
Proof.
  split.
  - apply (proj1 delete_then_not_found).
    apply NoDup_ListNoDup. repeat constructor. simpl. tauto.
  - apply (proj2 delete_then_not_found). reflexivity.
Defined.

(** ** Reading back what was written *)

(** X4.  A create with an id no stored record has is read back by a Get for
    that id: 200 with the record just stored.  For the Flask program the Get
    for the number [n] reaches the record when [n] is not negative and the
    body's id equals [n] under Python's [==]. *)
Theorem create_then_get :
  (∀ todos todo,
     (∀ t, t ∈ todos → FastAPI.id t ≠ FastAPI.id todo) →
     FastAPI.app (FastAPI.GET_todo (FastAPI.id todo))
       (FastAPI.app (FastAPI.POST_todos todo) todos).1
     = (todos ++ [todo],
        {| FastAPI.status_code := 200;
           FastAPI.content := FastAPI.OneTodo todo |})) ∧
  (∀ todos data n,
     0 ≤ n →
     (∀ t, t ∈ todos →
           Flask.py_eq (Flask.id t) (Flask.dict_get data "id" Flask.JNull)
           = false) →
     Flask.py_eq (Flask.dict_get data "id" Flask.JNull) (Flask.JInt n) = true →
     Flask.app (Flask.GET_todo n) (Flask.app (Flask.POST_todos data) todos).1
     = (todos ++ [new_todo data],
        {| Flask.status_code := 200;
           Flask.content := Flask.OneTodo (new_todo data) |})).
Proof.
  split.
  - intros todos todo H.
    assert (scan_find (λ e, FastAPI.id e =? FastAPI.id todo) todos = None) as E.
    { apply scan_find_None. intros t Ht. apply Z.eqb_neq. auto. }
    simpl. unfold FastAPI.create_todo. rewrite E. simpl.
    unfold FastAPI.get_todo.
    rewrite (scan_find_snoc _ _ _ E); [done | apply Z.eqb_refl].
  - intros todos data n Hpos H Hn.
    assert (scan_find
              (λ e, Flask.py_eq (Flask.id e) (Flask.dict_get data "id" Flask.JNull))
              todos = None) as E by (by apply scan_find_None).
    assert (scan_find (λ e, Flask.py_eq (Flask.id e) (Flask.JInt n)) todos = None)
      as E'.
    { apply scan_find_None. intros t Ht.
      destruct (Flask.py_eq (Flask.id t) (Flask.JInt n)) eqn:Et; [|done].
      rewrite <- (H t Ht). symmetry. by apply (flask_hit_trans _ _ (Flask.JInt n)). }
    simpl. rewrite (flask_routed _ Hpos).
    unfold Flask.create_todo. rewrite E. simpl. unfold Flask.get_todo.
    fold (new_todo data). by rewrite (scan_find_snoc _ _ _ E').
Qed.

Lemma create_then_get_witness :
  FastAPI.app (FastAPI.GET_todo 1)
    (FastAPI.app
       (FastAPI.POST_todos
          {| FastAPI.id := 1; FastAPI.item := "milk";
             FastAPI.completed := false |})
       [{| FastAPI.id := 2; FastAPI.item := "tea";
           FastAPI.completed := true |}]).1
  = ([{| FastAPI.id := 2; FastAPI.item := "tea"; FastAPI.completed := true |}]
     ++ [{| FastAPI.id := 1; FastAPI.item := "milk";
            FastAPI.completed := false |}],
     {| FastAPI.status_code := 200;
        FastAPI.content :=
          FastAPI.OneTodo
            {| FastAPI.id := 1; FastAPI.item := "milk";
               FastAPI.completed := false |} |})
  ∧
  Flask.app (Flask.GET_todo 1)
    (Flask.app (Flask.POST_todos {["id" := Flask.JBool true]}) []).1
  = ([] ++ [new_todo {["id" := Flask.JBool true]}],
     {| Flask.status_code := 200;
        Flask.content := Flask.OneTodo (new_todo {["id" := Flask.JBool true]}) |}).
Proof.
  split.
  - apply (proj1 create_then_get
             [{| FastAPI.id := 2; FastAPI.item := "tea";
                 FastAPI.completed := true |}]
             {| FastAPI.id := 1; FastAPI.item := "milk";
                FastAPI.completed := false |}).
    intros t Ht. apply list_elem_of_singleton in Ht as ->. simpl. lia.
  - apply (proj2 create_then_get).
    + lia.
    + intros t Ht. by apply elem_of_nil in Ht.
    + vm_compute. reflexivity.
Defined.

(** X5.  A Get after a successful Update or Toggle of the same id answers
    200 with exactly the record the Update or Toggle echoed. *)
Theorem get_after_mutation :
  (∀ todos todo_id todo_obj after message echoed,
     (FastAPI.update_todo todo_id todo_obj todos
      = (after, {| FastAPI.status_code := 200;
                   FastAPI.content := FastAPI.MessageTodo message echoed |}) ∨
      FastAPI.toggle_complete todo_id todos
      = (after, {| FastAPI.status_code := 200;
                   FastAPI.content := FastAPI.MessageTodo message echoed |})) →
     FastAPI.get_todo todo_id after
     = {| FastAPI.status_code := 200;
          FastAPI.content := FastAPI.OneTodo echoed |}) ∧
  (∀ todos todo_id data after message echoed,
     (Flask.update_todo todo_id data todos
      = (after, {| Flask.status_code := 200;
                   Flask.content := Flask.MessageTodo message echoed |}) ∨
      Flask.toggle_complete todo_id todos
      = (after, {| Flask.status_code := 200;
                   Flask.content := Flask.MessageTodo message echoed |})) →
     Flask.get_todo todo_id after
     = {| Flask.status_code := 200; Flask.content := Flask.OneTodo echoed |}).
Proof.
  split.
  - intros todos todo_id todo_obj after message echoed H.
    unfold FastAPI.get_todo.
    assert (scan_find (λ t, FastAPI.id t =? todo_id) after = Some echoed) as ->;
      [|done].
    destruct H as [H|H];
      unfold FastAPI.update_todo, FastAPI.toggle_complete in H;
      destruct (scan_mutate _ _ todos) as [[l y]|] eqn:E; try discriminate H;
      injection H as <- _ <-;
      by apply (scan_find_after_mutate _ _ _ _ _ E).
  - intros todos todo_id data after message echoed H.
    unfold Flask.get_todo.
    assert (scan_find (λ t, Flask.py_eq (Flask.id t) (Flask.JInt todo_id)) after
            = Some echoed) as ->; [|done].
    destruct H as [H|H];
      unfold Flask.update_todo, Flask.toggle_complete in H;
      destruct (scan_mutate _ _ todos) as [[l y]|] eqn:E; try discriminate H;
      injection H as <- _ <-;
      by apply (scan_find_after_mutate _ _ _ _ _ E).
Qed.

Lemma get_after_mutation_witness :
  FastAPI.get_todo 1
    [{| FastAPI.id := 1; FastAPI.item := "tea"; FastAPI.completed := true |}]
  = {| FastAPI.status_code := 200;
       FastAPI.content :=
         FastAPI.OneTodo
           {| FastAPI.id := 1; FastAPI.item := "tea";
              FastAPI.completed := true |} |}
  ∧
  Flask.get_todo 1
    [{| Flask.id := Flask.JInt 1; Flask.item := Flask.JStr "milk";
        Flask.completed := Flask.JBool true |}]
  = {| Flask.status_code := 200;
       Flask.content :=
         Flask.OneTodo
           {| Flask.id := Flask.JInt 1; Flask.item := Flask.JStr "milk";
              Flask.completed := Flask.JBool true |} |}.
Proof.
  split.
  - apply (proj1 get_after_mutation
             [{| FastAPI.id := 1; FastAPI.item := "milk";
                 FastAPI.completed := false |}] 1
             {| FastAPI.id := 9; FastAPI.item := "tea";
                FastAPI.completed := true |} _ "Todo updated").
    left. reflexivity.
  - apply (proj2 get_after_mutation
             [{| Flask.id := Flask.JInt 1; Flask.item := Flask.JStr "milk";
                 Flask.completed := Flask.JNull |}] 1 ∅ _
             "Todo completion status toggled").
    right. reflexivity.
Defined.

(** ** How the operations compose *)

(** X6.  Create followed by Delete of the same id gives back the list the
    create started from, when no stored record had the id; in the Flask
    program the number [n] in the URL of the Delete is not negative and
    equals the body's id under Python's [==]. *)
Theorem create_then_delete :
  (∀ todos todo,
     (∀ t, t ∈ todos → FastAPI.id t ≠ FastAPI.id todo) →
     FastAPI.app (FastAPI.DELETE_todo (FastAPI.id todo))
       (FastAPI.app (FastAPI.POST_todos todo) todos).1
     = (todos, {| FastAPI.status_code := 204;
                  FastAPI.content := FastAPI.Message "Todo removed" |})) ∧
  (∀ todos data n,
     0 ≤ n →
     (∀ t, t ∈ todos →
           Flask.py_eq (Flask.id t) (Flask.dict_get data "id" Flask.JNull)
           = false) →
     Flask.py_eq (Flask.dict_get data "id" Flask.JNull) (Flask.JInt n) = true →
     Flask.app (Flask.DELETE_todo n) (Flask.app (Flask.POST_todos data) todos).1
     = (todos, {| Flask.status_code := 204;
                  Flask.content := Flask.Message "Todo removed" |})).
Proof.
  split.
  - intros todos todo H.
    assert (scan_find (λ e, FastAPI.id e =? FastAPI.id todo) todos = None) as E.
    { apply scan_find_None. intros t Ht. apply Z.eqb_neq. auto. }
    simpl. unfold FastAPI.create_todo. rewrite E. simpl.
    rewrite (fastapi_delete_first_hit _ _ (length todos) todo).
    + by rewrite (delete_middle todos [] todo), app_nil_r.
    + apply first_hit_snoc; [done | apply Z.eqb_refl].
  - intros todos data n Hpos H Hn.
    assert (scan_find
              (λ e, Flask.py_eq (Flask.id e) (Flask.dict_get data "id" Flask.JNull))
              todos = None) as E by (by apply scan_find_None).
    assert (scan_find (λ e, Flask.py_eq (Flask.id e) (Flask.JInt n)) todos = None)
      as E'.
    { apply scan_find_None. intros t Ht.
      destruct (Flask.py_eq (Flask.id t) (Flask.JInt n)) eqn:Et; [|done].
      rewrite <- (H t Ht). symmetry. by apply (flask_hit_trans _ _ (Flask.JInt n)). }
    simpl. rewrite (flask_routed _ Hpos).
    unfold Flask.create_todo. rewrite E. simpl. fold (new_todo data).
    rewrite (flask_delete_first_hit _ _ (length todos) (new_todo data)).
    + by rewrite (delete_middle todos [] (new_todo data)), app_nil_r.
    + by apply first_hit_snoc.
Qed.

Lemma create_then_delete_witness :
  FastAPI.app (FastAPI.DELETE_todo 1)
    (FastAPI.app
       (FastAPI.POST_todos
          {| FastAPI.id := 1; FastAPI.item := "milk";
             FastAPI.completed := false |})
       [{| FastAPI.id := 2; FastAPI.item := "tea";
           FastAPI.completed := true |}]).1
  = ([{| FastAPI.id := 2; FastAPI.item := "tea"; FastAPI.completed := true |}],
     {| FastAPI.status_code := 204;
        FastAPI.content := FastAPI.Message "Todo removed" |})
  ∧
  Flask.app (Flask.DELETE_todo 1)
    (Flask.app (Flask.POST_todos {["id" := Flask.JInt 1]}) []).1
  = ([], {| Flask.status_code := 204;
            Flask.content := Flask.Message "Todo removed" |}).
Proof.
  split.
  - apply (proj1 create_then_delete
             [{| FastAPI.id := 2; FastAPI.item := "tea";
                 FastAPI.completed := true |}]
             {| FastAPI.id := 1; FastAPI.item := "milk";
                FastAPI.completed := false |}).
    intros t Ht. apply list_elem_of_singleton in Ht as ->. simpl. lia.
  - apply (proj2 create_then_delete).
    + lia.
    + intros t Ht. by apply elem_of_nil in Ht.
    + vm_compute. reflexivity.
Defined.

Lemma flask_dict_get_twice data key v :
  Flask.dict_get data key (Flask.dict_get data key v) = Flask.dict_get data key v.
Proof. unfold Flask.dict_get. by destruct (data !! key). Qed.

(** X7.  Update is idempotent: sending the same Update a second time
    changes nothing more and gets the same answer as the first time. *)
Theorem update_todo_idempotent :
  (∀ todos todo_id todo_obj,
     FastAPI.update_todo todo_id todo_obj
       (FastAPI.update_todo todo_id todo_obj todos).1
     = FastAPI.update_todo todo_id todo_obj todos) ∧
  (∀ todos todo_id data,
     Flask.update_todo todo_id data (Flask.update_todo todo_id data todos).1
     = Flask.update_todo todo_id data todos).
Proof.
  split.
  - intros todos todo_id todo_obj. rewrite fastapi_update_store.
    unfold FastAPI.update_todo at 1. rewrite scan_mutate_compose by done.
    unfold FastAPI.update_todo.
    rewrite (scan_mutate_ext _ (_ ∘ _)
               (λ todo, {| FastAPI.id := FastAPI.id todo;
                           FastAPI.item := FastAPI.item todo_obj;
                           FastAPI.completed := FastAPI.completed todo_obj |}))
      by done.
    destruct (scan_mutate _ _ todos) as [[l y]|] eqn:E; [done|].
    simpl. unfold scan_mutated. by rewrite E.
  - intros todos todo_id data. rewrite flask_update_store.
    unfold Flask.update_todo at 1. rewrite scan_mutate_compose by done.
    unfold Flask.update_todo.
    rewrite (scan_mutate_ext _ (_ ∘ _)
               (λ todo, {| Flask.id := Flask.id todo;
                           Flask.item := Flask.dict_get data "item" (Flask.item todo);
                           Flask.completed :=
                             Flask.dict_get data "completed"
                               (Flask.completed todo) |})).
    + destruct (scan_mutate _ _ todos) as [[l y]|] eqn:E; [done|].
      simpl. unfold scan_mutated. by rewrite E.
    + intros x. simpl. by rewrite !flask_dict_get_twice.
Qed.

(** X8.  In the Flask program the first Toggle leaves a boolean in
    [completed], so from then on two Toggles cancel: the third Toggle in a
    row gives the list and the answer of the first, whatever the field held
    at the start. *)
Theorem flask_toggle_thrice :
  ∀ todos todo_id,
    Flask.toggle_complete todo_id
      (Flask.toggle_complete todo_id
         (Flask.toggle_complete todo_id todos).1).1
    = Flask.toggle_complete todo_id todos.
Proof.
  intros todos todo_id. rewrite !flask_toggle_store.
  unfold Flask.toggle_complete at 1.
  set (hit := λ todo, Flask.py_eq (Flask.id todo) (Flask.JInt todo_id)).
  set (f := λ todo, {| Flask.id := Flask.id todo; Flask.item := Flask.item todo;
                       Flask.completed := Flask.py_not (Flask.completed todo) |}).
  rewrite (scan_mutated_compose hit f f) by done.
  rewrite scan_mutate_compose by done.
  rewrite (scan_mutate_ext _ (f ∘ (f ∘ f)) f).
  - unfold Flask.toggle_complete. fold hit f.
    destruct (scan_mutate hit f todos) as [[l y]|] eqn:E; [done|].
    simpl. unfold scan_mutated. fold hit.
    assert (scan_mutate hit (f ∘ f) todos = None) as ->; [|done].
    apply scan_mutate_None. destruct (scan_mutate_cases hit f todos)
      as [[Hn _]|(i & x & _ & Hs)]; [done | congruence].
  - intros [i it c]. unfold f, Flask.py_not. simpl.
    by rewrite !negb_involutive.
Qed.

(** X11.  A Flask Update whose body has neither [item] nor [completed]
    leaves the list exactly as it was, whether or not the id is stored. *)
Theorem flask_update_without_fields :
  ∀ todos todo_id data,
    data !! "item" = None → data !! "completed" = None →
    (Flask.update_todo todo_id data todos).1 = todos.
Proof.
  intros todos todo_id data Hi Hc. rewrite flask_update_store.
  apply scan_mutated_id. intros [i it c]. unfold Flask.dict_get.
  by rewrite Hi, Hc.
Qed.

Lemma flask_update_without_fields_witness :
  (Flask.update_todo 1 {["id" := Flask.JInt 5]}
     [{| Flask.id := Flask.JInt 1; Flask.item := Flask.JStr "milk";
         Flask.completed := Flask.JBool false |}]).1
  = [{| Flask.id := Flask.JInt 1; Flask.item := Flask.JStr "milk";
        Flask.completed := Flask.JBool false |}].
Proof.
  apply flask_update_without_fields; vm_compute; reflexivity.
Defined.

(** ** Status codes and what they say about the list *)

(** X9.  A request that is not answered with a 2xx code leaves the list
    untouched, in both programs. *)
Theorem failed_request_keeps_store :
  (∀ req todos,
     succeeded (FastAPI.status_code (FastAPI.app req todos).2) = false →
     (FastAPI.app req todos).1 = todos) ∧
  (∀ req todos,
     succeeded (Flask.status_code (Flask.app req todos).2) = false →
     (Flask.app req todos).1 = todos).
Proof.
  split.
  - intros [| |n|t|n t|n|n] todos; simpl; try done.
    + unfold FastAPI.create_todo. by destruct (scan_find _ todos).
    + unfold FastAPI.update_todo. by destruct (scan_mutate _ _ todos) as [[l y]|].
    + unfold FastAPI.toggle_complete.
      by destruct (scan_mutate _ _ todos) as [[l y]|].
    + by destruct (fastapi_delete_cases n todos) as [[_ ->]|(i & t & _ & ->)].
  - intros [| |n|d|n d|n|n] todos; simpl; try done;
      try (destruct (Flask.int_converter n); [|done]); try done.
    + unfold Flask.create_todo. by destruct (scan_find _ todos).
    + unfold Flask.update_todo. by destruct (scan_mutate _ _ todos) as [[l y]|].
    + unfold Flask.toggle_complete.
      by destruct (scan_mutate _ _ todos) as [[l y]|].
    + by destruct (flask_delete_cases n todos) as [[_ ->]|(i & t & _ & ->)].
Qed.

Lemma failed_request_keeps_store_witness :
  (FastAPI.app
     (FastAPI.POST_todos
        {| FastAPI.id := 1; FastAPI.item := "tea"; FastAPI.completed := true |})
     [{| FastAPI.id := 1; FastAPI.item := "milk"; FastAPI.completed := false |}]).1
  = [{| FastAPI.id := 1; FastAPI.item := "milk"; FastAPI.completed := false |}]
  ∧
  (Flask.app (Flask.DELETE_todo (-1))
     [{| Flask.id := Flask.JInt (-1); Flask.item := Flask.JStr "milk";
         Flask.completed := Flask.JBool false |}]).1
  = [{| Flask.id := Flask.JInt (-1); Flask.item := Flask.JStr "milk";
        Flask.completed := Flask.JBool false |}].
Proof.
  split.
  - apply (proj1 failed_request_keeps_store). reflexivity.
  - apply (proj2 failed_request_keeps_store). reflexivity.
Defined.

Lemma fastapi_code_of_route req todos :
  FastAPI.status_code (FastAPI.app req todos).2 ∈ fastapi_codes req.
Proof.
  destruct req as [| |n|t|n t|n|n]; simpl.
  - set_solver.
  - set_solver.
  - unfold FastAPI.get_todo. destruct (scan_find _ todos); set_solver.
  - unfold FastAPI.create_todo. destruct (scan_find _ todos); set_solver.
  - unfold FastAPI.update_todo.
    destruct (scan_mutate _ _ todos) as [[l y]|]; set_solver.
  - unfold FastAPI.toggle_complete.
    destruct (scan_mutate _ _ todos) as [[l y]|]; set_solver.
  - destruct (fastapi_delete_cases n todos) as [[_ ->]|(i & t & _ & ->)];
      set_solver.
Qed.

Lemma flask_code_of_route req todos :
  Flask.status_code (Flask.app req todos).2 ∈ flask_codes req.
Proof.
  destruct req as [| |n|d|n d|n|n]; simpl;
    try (destruct (Flask.int_converter n); [|set_solver]).
  - set_solver.
  - set_solver.
  - unfold Flask.get_todo. destruct (scan_find _ todos); set_solver.
  - unfold Flask.create_todo. destruct (scan_find _ todos); set_solver.
  - unfold Flask.update_todo.
    destruct (scan_mutate _ _ todos) as [[l y]|]; set_solver.
  - unfold Flask.toggle_complete.
    destruct (scan_mutate _ _ todos) as [[l y]|]; set_solver.
  - destruct (flask_delete_cases n todos) as [[_ ->]|(i & t & _ & ->)];
      set_solver.
Qed.

(** X10.  A request that reaches a handler in the form its signature
    expects (an integer in the path; as body a validated [Todo] in the
    FastAPI program, a JSON object in the Flask program) is answered with
    one of the two status codes its route names: 200 for the welcome and the
    list; 200 or 404 for Get, Update and Toggle; 201 or 400 for Create; 204
    or 404 for Delete.  In particular [todos.remove(todo)] always finds the
    record the loop stopped at and never raises, so Delete never ends in an
    unhandled [ValueError].  Requests the frameworks refuse, or bodies on
    which [data.get] itself raises, are not requests of this kind. *)
Theorem status_code_of_route :
  (∀ req todos,
     FastAPI.status_code (FastAPI.app req todos).2 ∈ fastapi_codes req) ∧
  (∀ req todos,
     Flask.status_code (Flask.app req todos).2 ∈ flask_codes req).
Proof. split; [apply fastapi_code_of_route | apply flask_code_of_route]. Qed.

(** X12.  The success code of an answer tells what happened to the list:
    after 201 it is the old list with one record appended, after 204 it is
    the old list with one position deleted, after 200 it has the same ids at
    the same positions. *)
Theorem store_after_success :
  (∀ req todos,
     let after := (FastAPI.app req todos).1 in
     let code := FastAPI.status_code (FastAPI.app req todos).2 in
     (code = 201 → ∃ t, after = todos ++ [t]) ∧
     (code = 204 → ∃ i, (i < length todos)%nat ∧ after = delete i todos) ∧
     (code = 200 → map FastAPI.id after = map FastAPI.id todos)) ∧
  (∀ req todos,
     let after := (Flask.app req todos).1 in
     let code := Flask.status_code (Flask.app req todos).2 in
     (code = 201 → ∃ t, after = todos ++ [t]) ∧
     (code = 204 → ∃ i, (i < length todos)%nat ∧ after = delete i todos) ∧
     (code = 200 → map Flask.id after = map Flask.id todos)).
Proof.
  split.
  - intros [| |n|t|n t|n|n] todos; simpl; try done.
    + unfold FastAPI.get_todo. by destruct (scan_find _ todos).
    + unfold FastAPI.create_todo. destruct (scan_find _ todos); simpl; [done|].
      repeat split; try done. eauto.
    + rewrite fastapi_update_store. unfold FastAPI.update_todo.
      destruct (scan_mutate _ _ todos) as [[l y]|]; simpl; [|done].
      repeat split; try done. intros _. by apply scan_mutated_keys.
    + rewrite fastapi_toggle_store. unfold FastAPI.toggle_complete.
      destruct (scan_mutate _ _ todos) as [[l y]|]; simpl; [|done].
      repeat split; try done. intros _. by apply scan_mutated_keys.
    + destruct (fastapi_delete_cases n todos) as [[_ ->]|(i & t & Hi & ->)];
        simpl; [done|].
      repeat split; try done. intros _. exists i. split; [|done].
      destruct Hi as (Hi & _). by apply lookup_lt_Some in Hi.
  - intros [| |n|d|n d|n|n] todos; simpl; try done;
      try (destruct (Flask.int_converter n); [|done]).
    + unfold Flask.get_todo. by destruct (scan_find _ todos).
    + unfold Flask.create_todo. destruct (scan_find _ todos); simpl; [done|].
      repeat split; try done. eauto.
    + rewrite flask_update_store. unfold Flask.update_todo.
      destruct (scan_mutate _ _ todos) as [[l y]|]; simpl; [|done].
      repeat split; try done. intros _. by apply scan_mutated_keys.
    + rewrite flask_toggle_store. unfold Flask.toggle_complete.
      destruct (scan_mutate _ _ todos) as [[l y]|]; simpl; [|done].
      repeat split; try done. intros _. by apply scan_mutated_keys.
    + destruct (flask_delete_cases n todos) as [[_ ->]|(i & t & Hi & ->)];
        simpl; [done|].
      repeat split; try done. intros _. exists i. split; [|done].
      destruct Hi as (Hi & _). by apply lookup_lt_Some in Hi.
Qed.

Lemma store_after_success_witness :
  (∃ t,
     (FastAPI.app
        (FastAPI.POST_todos
           {| FastAPI.id := 1; FastAPI.item := "milk";
              FastAPI.completed := false |}) []).1
     = [] ++ [t]) ∧
  (∃ i, (i < 1)%nat ∧
     (Flask.app (Flask.DELETE_todo 1)
        [{| Flask.id := Flask.JInt 1; Flask.item := Flask.JStr "milk";
            Flask.completed := Flask.JBool false |}]).1
     = delete i
         [{| Flask.id := Flask.JInt 1; Flask.item := Flask.JStr "milk";
             Flask.completed := Flask.JBool false |}]).
Proof.
  split.
  - apply (proj1 (proj1 store_after_success
             (FastAPI.POST_todos
                {| FastAPI.id := 1; FastAPI.item := "milk";
                   FastAPI.completed := false |}) [])).
    reflexivity.
  - apply (proj1 (proj2 (proj2 store_after_success
             (Flask.DELETE_todo 1)
             [{| Flask.id := Flask.JInt 1; Flask.item := Flask.JStr "milk";
                 Flask.completed := Flask.JBool false |}]))).
    reflexivity.
Defined.

(** ** The virtual users of the load test *)

Lemma concat_insert_perm {A} (ls : list (list A)) u l l' :
  ls !! u = Some l → concat (<[u := l']> ls) ≡ₚ l' ++ concat (delete u ls).
Proof.
  revert u. induction ls as [|a ls IH]; intros [|u] H; try done; simpl in *.
  rewrite (IH u H). apply Permutation_app_swap_app.
Qed.

Lemma concat_lookup_perm {A} (ls : list (list A)) u l :
  ls !! u = Some l → concat ls ≡ₚ l ++ concat (delete u ls).
Proof.
  intros H. rewrite <- (concat_insert_perm ls u l l H).
  by rewrite list_insert_id.
Qed.

Lemma concat_replicate_nil {A} n : concat (replicate n (@nil A)) = [].
Proof. induction n; simpl; auto. Qed.

Lemma choice_elem pick ids : ids ≠ [] → TodoLoadTest.choice pick ids ∈ ids.
Proof.
  intros H. unfold TodoLoadTest.choice. apply list_elem_of_In, nth_In.
  apply Nat.mod_upper_bound. by destruct ids.
Qed.

Lemma py_remove_elem (x : Z) ids :
  x ∈ ids → ∃ ids', py_remove Z.eqb x ids = Some ids' ∧ ids ≡ₚ x :: ids'.
Proof.
  induction ids as [|a ids IH]; intros H; [by apply elem_of_nil in H|].
  simpl. destruct (a =? x) eqn:E.
  - apply Z.eqb_eq in E as ->. eauto.
  - apply elem_of_cons in H as [->|H]; [by rewrite Z.eqb_refl in E|].
    destruct (IH H) as (ids' & -> & Hp). exists (a :: ids').
    split; [done|]. rewrite Hp. apply perm_swap.
Qed.

Lemma add_metric_elem m request_type name len code users_ success metrics :
  m ∈ PerformanceMetricsCollector.add_metric request_type name len code users_
        success metrics →
  m ∈ metrics ∨
  m = {| Locust.request_type := request_type; Locust.name := name;
         Locust.response_length := len; Locust.response_code := code;
         Locust.concurrent_users := users_; Locust.success := success |}.
Proof.
  unfold PerformanceMetricsCollector.add_metric. intros H.
  apply elem_of_app in H as [H|H]; [by left|].
  right. by apply list_elem_of_singleton in H.
Qed.

Section Harness.
Context {server : Type}.
Variable client : FastAPI.request → server → server * TodoLoadTest.reply.
Variable stored : server → Z → Prop.
Variable valid : Z → Prop.

(** What the tasks need of the server behind the client. *)
Hypothesis client_get : ∀ s s' r,
  client FastAPI.GET_todos s = (s', r) →
  TodoLoadTest.status_code r = 200 ∧ ∀ x, stored s x → stored s' x.
Hypothesis client_post : ∀ t s s' r,
  valid (FastAPI.id t) → client (FastAPI.POST_todos t) s = (s', r) →
  (∀ x, stored s x → stored s' x) ∧
  ((stored s (FastAPI.id t) ∧ TodoLoadTest.status_code r = 400) ∨
   (¬ stored s (FastAPI.id t) ∧ TodoLoadTest.status_code r = 201 ∧
    stored s' (FastAPI.id t))).
Hypothesis client_put : ∀ n t s s' r,
  valid n → stored s n → client (FastAPI.PUT_todo n t) s = (s', r) →
  TodoLoadTest.status_code r = 200 ∧ ∀ x, stored s x → stored s' x.
Hypothesis client_delete : ∀ n s s' r,
  valid n → stored s n → client (FastAPI.DELETE_todo n) s = (s', r) →
  TodoLoadTest.status_code r = 204 ∧ ∀ x, x ≠ n → stored s x → stored s' x.

Lemma update_todo_nonempty pick item_draw completed_draw user_count s ms ids :
  ids ≠ [] →
  TodoLoadTest.update_todo client pick item_draw completed_draw user_count
    {| TodoLoadTest.backend := s; TodoLoadTest.metrics := ms;
       TodoLoadTest.todo_ids := ids |}
  = let todo_id := TodoLoadTest.choice pick ids in
    let '(s', r) :=
      client (FastAPI.PUT_todo todo_id
                {| FastAPI.id := todo_id;
                   FastAPI.item :=
                     String.append "Updated Todo " (pretty item_draw);
                   FastAPI.completed := completed_draw |}) s in
    {| TodoLoadTest.backend := s';
       TodoLoadTest.metrics :=
         PerformanceMetricsCollector.add_metric "PUT"
           (String.append "/todos/" (pretty todo_id))
           (TodoLoadTest.response_length r) (TodoLoadTest.status_code r)
           user_count
           (TodoLoadTest.code_in (TodoLoadTest.status_code r) [200; 204]) ms;
       TodoLoadTest.todo_ids := ids |}.
Proof. by destruct ids. Qed.

Lemma delete_todo_nonempty pick user_count s ms ids :
  ids ≠ [] →
  TodoLoadTest.delete_todo client pick user_count
    {| TodoLoadTest.backend := s; TodoLoadTest.metrics := ms;
       TodoLoadTest.todo_ids := ids |}
  = let todo_id := TodoLoadTest.choice pick ids in
    let '(s', r) := client (FastAPI.DELETE_todo todo_id) s in
    {| TodoLoadTest.backend := s';
       TodoLoadTest.metrics :=
         PerformanceMetricsCollector.add_metric "DELETE"
           (String.append "/todos/" (pretty todo_id))
           (TodoLoadTest.response_length r) (TodoLoadTest.status_code r)
           user_count
           (TodoLoadTest.code_in (TodoLoadTest.status_code r) [200; 204]) ms;
       TodoLoadTest.todo_ids :=
         if TodoLoadTest.code_in (TodoLoadTest.status_code r) [200; 204]
         then match py_remove Z.eqb todo_id ids with
              | Some ids' => ids'
              | None => ids
              end
         else ids |}.
Proof. by destruct ids. Qed.

Lemma step_tracked u a w :
  TodoLoadTest.draws valid a →
  TodoLoadTest.tracked_ok stored valid w ∧
  TodoLoadTest.only_creates_fail (TodoLoadTest.collected w) →
  TodoLoadTest.tracked_ok stored valid (TodoLoadTest.step client u a w) ∧
  TodoLoadTest.only_creates_fail
    (TodoLoadTest.collected (TodoLoadTest.step client u a w)).
Proof.
  intros Ha [[Hnd Hst] Hm]. unfold TodoLoadTest.step.
  destruct (TodoLoadTest.users w !! u) as [ids|] eqn:Hu; [|done].
  pose proof (concat_lookup_perm _ _ _ Hu) as Hall.
  assert (∀ ids', concat (<[u := ids']> (TodoLoadTest.users w))
                  ≡ₚ ids' ++ concat (delete u (TodoLoadTest.users w))) as Hall'
    by (intros ids'; by apply (concat_insert_perm _ _ ids)).
  set (rest := concat (delete u (TodoLoadTest.users w))) in *.
  assert (∀ x, x ∈ ids → x ∈ concat (TodoLoadTest.users w)) as Hin
    by (intros x Hx; rewrite Hall; apply elem_of_app; by left).
  destruct a as [uc|idd itd uc|pick itd cd uc|pick uc]; simpl.
  - (* get_todos *)
    unfold TodoLoadTest.get_todos. simpl.
    destruct (client FastAPI.GET_todos (TodoLoadTest.server_state w))
      as [s' r] eqn:E.
    destruct (client_get _ _ _ E) as [Hc Hs]. simpl.
    rewrite list_insert_id by done. repeat split; [done|..].
    + by apply Hst.
    + apply Hs. by apply Hst.
    + intros m Hmem Hty. apply add_metric_elem in Hmem as [Hmem| ->]; [eauto|].
      simpl. by rewrite ?Hc.
  - (* create_todo *)
    unfold TodoLoadTest.create_todo. simpl.
    destruct (client _ (TodoLoadTest.server_state w)) as [s' r] eqn:E.
    pose proof (λ H, client_post _ _ _ _ H E) as Hpost. simpl in Hpost.
    destruct (Hpost Ha) as [Hs [[Hold Hc]|(Hnew & Hc & Hs')]]; clear Hpost;
      simpl in *; rewrite Hc; simpl.
    + rewrite list_insert_id by done. repeat split; [done|..].
      * by apply Hst.
      * apply Hs. by apply Hst.
      * intros m Hmem Hty.
        apply add_metric_elem in Hmem as [Hmem| ->]; [eauto | done].
    + assert (concat (<[u := ids ++ [idd]]> (TodoLoadTest.users w))
              ≡ₚ idd :: concat (TodoLoadTest.users w)) as Hp.
      { rewrite Hall', Hall. rewrite <- app_assoc. simpl.
        by rewrite <- Permutation_middle. }
      repeat split.
      * rewrite Hp. apply NoDup_cons. split; [|done].
        intros Hx. by apply Hst in Hx as [_ Hx].
      * rewrite Hp in H. apply elem_of_cons in H as [->|H]; [done|].
        by apply Hst.
      * rewrite Hp in H. apply elem_of_cons in H as [->|H]; [done|].
        apply Hs. by apply Hst.
      * intros m Hmem Hty.
        apply add_metric_elem in Hmem as [Hmem| ->]; [eauto | done].
  - (* update_todo *)
    destruct (decide (ids = [])) as [->|Hne].
    { simpl. rewrite list_insert_id by done. done. }
    rewrite update_todo_nonempty by done. cbv zeta.
    pose proof (Hin _ (choice_elem pick ids Hne)) as Hch.
    destruct (Hst _ Hch) as [Hv Hsto].
    destruct (client _ (TodoLoadTest.server_state w)) as [s' r] eqn:E.
    destruct (client_put _ _ _ _ _ Hv Hsto E) as [Hc Hs]. simpl.
    rewrite list_insert_id by done. repeat split; [done|..].
    + by apply Hst.
    + apply Hs. by apply Hst.
    + intros m Hmem Hty. apply add_metric_elem in Hmem as [Hmem| ->]; [eauto|].
      simpl. by rewrite ?Hc.
  - (* delete_todo *)
    destruct (decide (ids = [])) as [->|Hne].
    { simpl. rewrite list_insert_id by done. done. }
    rewrite delete_todo_nonempty by done. cbv zeta.
    pose proof (choice_elem pick ids Hne) as Hel.
    pose proof (Hin _ Hel) as Hch.
    destruct (Hst _ Hch) as [Hv Hsto].
    destruct (client _ (TodoLoadTest.server_state w)) as [s' r] eqn:E.
    destruct (client_delete _ _ _ _ Hv Hsto E) as [Hc Hs]. simpl.
    rewrite Hc. simpl.
    destruct (py_remove_elem _ _ Hel) as (ids' & -> & Hp).
    assert (concat (TodoLoadTest.users w)
            ≡ₚ TodoLoadTest.choice pick ids :: (ids' ++ rest)) as Hp'
      by (etrans; [exact Hall|];
          apply (Permutation_app_tail rest) in Hp; exact Hp).
    rewrite Hp' in Hnd. apply NoDup_cons in Hnd as [Hnotin Hnd'].
    unfold TodoLoadTest.tracked_ok. simpl. repeat split.
    + by rewrite Hall'.
    + apply Hst. rewrite Hp'. apply list_elem_of_further. by rewrite <- Hall'.
    + rewrite Hall' in H. apply Hs; [by intros -> |].
      apply Hst. rewrite Hp'. by apply list_elem_of_further.
    + intros m Hmem Hty. apply add_metric_elem in Hmem as [Hmem| ->]; [eauto|].
      simpl. by rewrite ?Hc.
Qed.

Lemma run_tracked schedule w :
  Forall (λ ua, TodoLoadTest.draws valid ua.2) schedule →
  TodoLoadTest.tracked_ok stored valid w ∧
  TodoLoadTest.only_creates_fail (TodoLoadTest.collected w) →
  TodoLoadTest.tracked_ok stored valid (TodoLoadTest.run client schedule w) ∧
  TodoLoadTest.only_creates_fail
    (TodoLoadTest.collected (TodoLoadTest.run client schedule w)).
Proof.
  revert w. induction schedule as [|[u a] schedule IH]; intros w Hf Hw;
    [done|].
  apply Forall_cons in Hf as [Ha Hf]. simpl.
  apply IH; [done|]. by apply step_tracked.
Qed.
End Harness.

Section HarnessFlags.
Context {server : Type}.
Variable client : FastAPI.request → server → server * TodoLoadTest.reply.

Hypothesis client_codes : ∀ req s s' r,
  client req s = (s', r) → TodoLoadTest.status_code r ∈ fastapi_codes req.

Lemma step_flags u a w :
  TodoLoadTest.flags_follow_codes (TodoLoadTest.collected w) →
  TodoLoadTest.flags_follow_codes
    (TodoLoadTest.collected (TodoLoadTest.step client u a w)).
Proof.
  intros Hm. unfold TodoLoadTest.step.
  destruct (TodoLoadTest.users w !! u) as [ids|]; [|done].
  destruct a as [uc|idd itd uc|pick itd cd uc|pick uc]; simpl.
  - unfold TodoLoadTest.get_todos. simpl.
    destruct (client _ (TodoLoadTest.server_state w)) as [s' r] eqn:E. simpl.
    intros m Hmem. apply add_metric_elem in Hmem as [Hmem| ->]; [eauto|].
    pose proof (client_codes _ _ _ _ E) as Hc. simpl in Hc |- *.
    set_unfold in Hc. by destruct Hc as [->|[]].
  - unfold TodoLoadTest.create_todo. simpl.
    destruct (client _ (TodoLoadTest.server_state w)) as [s' r] eqn:E. simpl.
    intros m Hmem. apply add_metric_elem in Hmem as [Hmem| ->]; [eauto|].
    pose proof (client_codes _ _ _ _ E) as Hc. simpl in Hc |- *.
    set_unfold in Hc. by destruct Hc as [->|[->|[]]].
  - destruct (decide (ids = [])) as [->|Hne]; [done|].
    rewrite update_todo_nonempty by done. cbv zeta.
    destruct (client _ (TodoLoadTest.server_state w)) as [s' r] eqn:E. simpl.
    intros m Hmem. apply add_metric_elem in Hmem as [Hmem| ->]; [eauto|].
    pose proof (client_codes _ _ _ _ E) as Hc. simpl in Hc |- *.
    set_unfold in Hc. by destruct Hc as [->|[->|[]]].
  - destruct (decide (ids = [])) as [->|Hne]; [done|].
    rewrite delete_todo_nonempty by done. cbv zeta.
    destruct (client _ (TodoLoadTest.server_state w)) as [s' r] eqn:E. simpl.
    intros m Hmem. apply add_metric_elem in Hmem as [Hmem| ->]; [eauto|].
    pose proof (client_codes _ _ _ _ E) as Hc. simpl in Hc |- *.
    set_unfold in Hc. by destruct Hc as [->|[->|[]]].
Qed.

Lemma run_flags schedule w :
  TodoLoadTest.flags_follow_codes (TodoLoadTest.collected w) →
  TodoLoadTest.flags_follow_codes
    (TodoLoadTest.collected (TodoLoadTest.run client schedule w)).
Proof.
  revert w. induction schedule as [|[u a] schedule IH]; intros w Hw; [done|].
  simpl. by apply IH, step_flags.
Qed.
End HarnessFlags.

(** ** The two programs behind the client *)

Lemma fastapi_client_eq measure req todos :
  TodoLoadTest.fastapi_client measure req todos
  = ((FastAPI.app req todos).1,
     {| TodoLoadTest.status_code := FastAPI.status_code (FastAPI.app req todos).2;
        TodoLoadTest.response_length := measure (FastAPI.app req todos).2 |}).
Proof.
  unfold TodoLoadTest.fastapi_client. by destruct (FastAPI.app req todos).
Qed.

Lemma flask_client_eq measure req todos :
  TodoLoadTest.flask_client measure req todos
  = ((Flask.app (to_flask req) todos).1,
     {| TodoLoadTest.status_code :=
          Flask.status_code (Flask.app (to_flask req) todos).2;
        TodoLoadTest.response_length :=
          measure (Flask.app (to_flask req) todos).2 |}).
Proof.
  unfold TodoLoadTest.flask_client. by destruct (Flask.app (to_flask req) todos).
Qed.

Lemma flask_codes_to_flask req : flask_codes (to_flask req) = fastapi_codes req.
Proof. by destruct req. Qed.

Lemma elem_of_delete_other {A} (l : list A) i j y :
  l !! j = Some y → j ≠ i → y ∈ delete i l.
Proof.
  intros Hj Hne. apply list_elem_of_lookup.
  destruct (decide (j < i)%nat).
  - exists j. by rewrite list_lookup_delete_lt.
  - exists (pred j). rewrite list_lookup_delete_ge by lia.
    by replace (S (pred j)) with j by lia.
Qed.

Lemma fastapi_stored_ids todos x :
  TodoLoadTest.fastapi_stored todos x ↔ x ∈ map FastAPI.id todos.
Proof.
  unfold TodoLoadTest.fastapi_stored.
  change (map FastAPI.id todos) with (FastAPI.id <$> todos).
  rewrite list_elem_of_fmap. split.
  - intros (t & Ht & <-). eauto.
  - intros (t & -> & Ht). eauto.
Qed.

Lemma flask_stored_ids todos x :
  TodoLoadTest.flask_stored todos x
  ↔ ∃ k, k ∈ map Flask.id todos ∧ Flask.py_eq k (Flask.JInt x) = true.
Proof.
  unfold TodoLoadTest.flask_stored.
  change (map Flask.id todos) with (Flask.id <$> todos). split.
  - intros (t & Ht & Hk). exists (Flask.id t).
    split; [by apply list_elem_of_fmap_2 | done].
  - intros (k & Hk & Hx). apply list_elem_of_fmap in Hk as (t & -> & Ht). eauto.
Qed.

Lemma fastapi_scan_stored todos n :
  TodoLoadTest.fastapi_stored todos n →
  scan_find (λ t, FastAPI.id t =? n) todos ≠ None.
Proof.
  intros (t & Ht & Hid) E. rewrite scan_find_None in E.
  specialize (E t Ht). simpl in E. apply Z.eqb_neq in E. done.
Qed.

Lemma flask_scan_stored todos n :
  TodoLoadTest.flask_stored todos n →
  scan_find (λ t, Flask.py_eq (Flask.id t) (Flask.JInt n)) todos ≠ None.
Proof.
  intros (t & Ht & Hid) E. rewrite scan_find_None in E.
  specialize (E t Ht). simpl in E. congruence.
Qed.

Lemma fastapi_backend_get measure s s' r :
  TodoLoadTest.fastapi_client measure FastAPI.GET_todos s = (s', r) →
  TodoLoadTest.status_code r = 200 ∧
  ∀ x, TodoLoadTest.fastapi_stored s x → TodoLoadTest.fastapi_stored s' x.
Proof. rewrite fastapi_client_eq. by intros [= <- <-]. Qed.

Lemma fastapi_backend_post measure t s s' r :
  TodoLoadTest.fastapi_client measure (FastAPI.POST_todos t) s = (s', r) →
  (∀ x, TodoLoadTest.fastapi_stored s x → TodoLoadTest.fastapi_stored s' x) ∧
  ((TodoLoadTest.fastapi_stored s (FastAPI.id t) ∧
    TodoLoadTest.status_code r = 400) ∨
   (¬ TodoLoadTest.fastapi_stored s (FastAPI.id t) ∧
    TodoLoadTest.status_code r = 201 ∧
    TodoLoadTest.fastapi_stored s' (FastAPI.id t))).
Proof.
  rewrite fastapi_client_eq. simpl. unfold FastAPI.create_todo.
  destruct (scan_find (λ e, FastAPI.id e =? FastAPI.id t) s) as [x|] eqn:E;
    simpl; intros [= <- <-]; simpl.
  - split; [done|]. left. split; [|done].
    apply scan_find_first_hit in E as (i & Hi & Hx & _). exists x.
    split; [by eapply list_elem_of_lookup_2 | by apply Z.eqb_eq].
  - split.
    + intros x (t' & Ht' & Hid). exists t'. split; [|done].
      apply elem_of_app. by left.
    + right. split; [by intros H%fastapi_scan_stored|]. split; [done|].
      exists t. split; [|done]. apply elem_of_app. right. apply list_elem_of_here.
Qed.

Lemma fastapi_backend_put measure n t s s' r :
  TodoLoadTest.fastapi_stored s n →
  TodoLoadTest.fastapi_client measure (FastAPI.PUT_todo n t) s = (s', r) →
  TodoLoadTest.status_code r = 200 ∧
  ∀ x, TodoLoadTest.fastapi_stored s x → TodoLoadTest.fastapi_stored s' x.
Proof.
  intros Hn%fastapi_scan_stored. rewrite fastapi_client_eq.
  intros [= <- <-]. simpl. split.
  - unfold FastAPI.update_todo.
    destruct (scan_mutate_cases (λ t, FastAPI.id t =? n)
                (λ todo, {| FastAPI.id := FastAPI.id todo;
                            FastAPI.item := FastAPI.item t;
                            FastAPI.completed := FastAPI.completed t |}) s)
      as [[E _]|(i & x & _ & ->)]; done.
  - intros x. rewrite !fastapi_stored_ids, fastapi_update_store.
    by rewrite (scan_mutated_keys FastAPI.id).
Qed.

Lemma fastapi_backend_delete measure n s s' r :
  TodoLoadTest.fastapi_stored s n →
  TodoLoadTest.fastapi_client measure (FastAPI.DELETE_todo n) s = (s', r) →
  TodoLoadTest.status_code r = 204 ∧
  ∀ x, x ≠ n →
       TodoLoadTest.fastapi_stored s x → TodoLoadTest.fastapi_stored s' x.
Proof.
  intros Hn%fastapi_scan_stored. rewrite fastapi_client_eq. simpl.
  destruct (fastapi_delete_cases n s) as [[E _]|(i & t & Hi & ->)]; [done|].
  intros [= <- <-]. simpl. split; [done|].
  intros x Hx (t' & Ht' & Hid). exists t'. split; [|done].
  apply list_elem_of_lookup in Ht' as [j Hj].
  apply (elem_of_delete_other _ i j); [done|]. intros ->.
  destruct Hi as (Hi & Hhit & _). simpl in Hhit. apply Z.eqb_eq in Hhit.
  congruence.
Qed.

Lemma flask_backend_get measure s s' r :
  TodoLoadTest.flask_client measure FastAPI.GET_todos s = (s', r) →
  TodoLoadTest.status_code r = 200 ∧
  ∀ x, TodoLoadTest.flask_stored s x → TodoLoadTest.flask_stored s' x.
Proof. rewrite flask_client_eq. by intros [= <- <-]. Qed.

Lemma flask_backend_post measure t s s' r :
  TodoLoadTest.flask_client measure (FastAPI.POST_todos t) s = (s', r) →
  (∀ x, TodoLoadTest.flask_stored s x → TodoLoadTest.flask_stored s' x) ∧
  ((TodoLoadTest.flask_stored s (FastAPI.id t) ∧
    TodoLoadTest.status_code r = 400) ∨
   (¬ TodoLoadTest.flask_stored s (FastAPI.id t) ∧
    TodoLoadTest.status_code r = 201 ∧
    TodoLoadTest.flask_stored s' (FastAPI.id t))).
Proof.
  rewrite flask_client_eq. simpl. unfold Flask.create_todo.
  rewrite full_body_id.
  destruct (scan_find (λ e, Flask.py_eq (Flask.id e) (Flask.JInt (FastAPI.id t))) s)
    as [x|] eqn:E; simpl; intros [= <- <-]; simpl.
  - split; [done|]. left. split; [|done].
    apply scan_find_first_hit in E as (i & Hi & Hx & _). exists x.
    split; [by eapply list_elem_of_lookup_2 | done].
  - split.
    + intros x (t' & Ht' & Hid). exists t'. split; [|done].
      apply elem_of_app. by left.
    + right. split; [by intros H%flask_scan_stored|]. split; [done|].
      eexists. split; [apply elem_of_app; right; apply list_elem_of_here|].
      simpl. apply py_eq_refl.
Qed.

Lemma flask_backend_put measure n t s s' r :
  0 ≤ n → TodoLoadTest.flask_stored s n →
  TodoLoadTest.flask_client measure (FastAPI.PUT_todo n t) s = (s', r) →
  TodoLoadTest.status_code r = 200 ∧
  ∀ x, TodoLoadTest.flask_stored s x → TodoLoadTest.flask_stored s' x.
Proof.
  intros Hpos Hn%flask_scan_stored. rewrite flask_client_eq. simpl.
  unfold Flask.int_converter. rewrite (proj2 (Z.leb_le 0 n) Hpos).
  intros [= <- <-]. split.
  - unfold Flask.update_todo.
    destruct (scan_mutate_cases
                (λ t, Flask.py_eq (Flask.id t) (Flask.JInt n))
                (λ todo, {| Flask.id := Flask.id todo;
                            Flask.item :=
                              Flask.dict_get (full_body t) "item" (Flask.item todo);
                            Flask.completed :=
                              Flask.dict_get (full_body t) "completed"
                                (Flask.completed todo) |}) s)
      as [[E _]|(i & x & _ & ->)]; done.
  - intros x. rewrite !flask_stored_ids, flask_update_store.
    by rewrite (scan_mutated_keys Flask.id).
Qed.

Lemma flask_backend_delete measure n s s' r :
  0 ≤ n → TodoLoadTest.flask_stored s n →
  TodoLoadTest.flask_client measure (FastAPI.DELETE_todo n) s = (s', r) →
  TodoLoadTest.status_code r = 204 ∧
  ∀ x, x ≠ n → TodoLoadTest.flask_stored s x → TodoLoadTest.flask_stored s' x.
Proof.
  intros Hpos Hn%flask_scan_stored. rewrite flask_client_eq. simpl.
  unfold Flask.int_converter. rewrite (proj2 (Z.leb_le 0 n) Hpos).
  destruct (flask_delete_cases n s) as [[E _]|(i & t & Hi & ->)]; [done|].
  intros [= <- <-]. simpl. split; [done|].
  intros x Hx (t' & Ht' & Hid). exists t'. split; [|done].
  apply list_elem_of_lookup in Ht' as [j Hj].
  apply (elem_of_delete_other _ i j); [done|]. intros ->.
  destruct Hi as (Hi & Hhit & _). simpl in Hhit.
  assert (t' = t) as -> by congruence.
  assert (Flask.py_eq (Flask.JInt x) (Flask.JInt n) = true) as Hxn.
  { apply py_eq_trans with (Flask.id t); [by rewrite py_eq_sym | done]. }
  rewrite py_eq_JInt in Hxn. apply Z.eqb_eq in Hxn. congruence.
Qed.

Lemma in_range_draws a :
  TodoLoadTest.in_range a → TodoLoadTest.draws (λ x, 1 ≤ x ≤ 10000) a.
Proof. destruct a; simpl; tauto. Qed.

Lemma fastapi_run_tracked measure schedule w :
  TodoLoadTest.tracked_ok TodoLoadTest.fastapi_stored (λ _, True) w ∧
  TodoLoadTest.only_creates_fail (TodoLoadTest.collected w) →
  TodoLoadTest.tracked_ok TodoLoadTest.fastapi_stored (λ _, True)
    (TodoLoadTest.run (TodoLoadTest.fastapi_client measure) schedule w) ∧
  TodoLoadTest.only_creates_fail
    (TodoLoadTest.collected
       (TodoLoadTest.run (TodoLoadTest.fastapi_client measure) schedule w)).
Proof.
  apply run_tracked.
  - apply fastapi_backend_get.
  - intros t s s' r _. apply fastapi_backend_post.
  - intros n t s s' r _. apply fastapi_backend_put.
  - intros n s s' r _. apply fastapi_backend_delete.
  - apply Forall_forall. intros [u a] _. by destruct a.
Qed.

Lemma flask_run_tracked measure schedule w :
  Forall (λ ua, TodoLoadTest.in_range ua.2) schedule →
  TodoLoadTest.tracked_ok TodoLoadTest.flask_stored (λ x, 1 ≤ x ≤ 10000) w ∧
  TodoLoadTest.only_creates_fail (TodoLoadTest.collected w) →
  TodoLoadTest.tracked_ok TodoLoadTest.flask_stored (λ x, 1 ≤ x ≤ 10000)
    (TodoLoadTest.run (TodoLoadTest.flask_client measure) schedule w) ∧
  TodoLoadTest.only_creates_fail
    (TodoLoadTest.collected
       (TodoLoadTest.run (TodoLoadTest.flask_client measure) schedule w)).
Proof.
  intros Hr. apply run_tracked.
  - apply flask_backend_get.
  - intros t s s' r _. apply flask_backend_post.
  - intros n t s s' r Hv. apply flask_backend_put. lia.
  - intros n s s' r Hv. apply flask_backend_delete. lia.
  - eapply Forall_impl; [exact Hr|]. intros [u a]. apply in_range_draws.
Qed.

Lemma fresh_world_tracked {server} (stored : server → Z → Prop) valid s n :
  TodoLoadTest.tracked_ok stored valid
    {| TodoLoadTest.server_state := s; TodoLoadTest.collected := [];
       TodoLoadTest.users := replicate n [] |} ∧
  TodoLoadTest.only_creates_fail [].
Proof.
  unfold TodoLoadTest.tracked_ok, TodoLoadTest.only_creates_fail. simpl.
  rewrite concat_replicate_nil. repeat split.
  - constructor.
  - by apply elem_of_nil in H.
  - by apply elem_of_nil in H.
  - intros m Hm. by apply elem_of_nil in Hm.
Qed.

(** X13.  In a test run against either program, with any number of users
    starting with no ids and any list on the server, the only requests that
    are ever recorded as failed are creates: every Update and every Delete a
    user sends is for a record that is there.  (For the Flask program the
    ids drawn are those of [random.randint(1, 10000)]; the tasks of the run
    happen one at a time.) *)
Theorem load_test_only_creates_fail :
  (∀ measure schedule todos n,
     TodoLoadTest.only_creates_fail
       (TodoLoadTest.collected
          (TodoLoadTest.run (TodoLoadTest.fastapi_client measure) schedule
             {| TodoLoadTest.server_state := todos;
                TodoLoadTest.collected := [];
                TodoLoadTest.users := replicate n [] |}))) ∧
  (∀ measure schedule todos n,
     Forall (λ ua, TodoLoadTest.in_range ua.2) schedule →
     TodoLoadTest.only_creates_fail
       (TodoLoadTest.collected
          (TodoLoadTest.run (TodoLoadTest.flask_client measure) schedule
             {| TodoLoadTest.server_state := todos;
                TodoLoadTest.collected := [];
                TodoLoadTest.users := replicate n [] |}))).
Proof.
  split.
  - intros measure schedule todos n.
    apply fastapi_run_tracked, fresh_world_tracked.
  - intros measure schedule todos n Hr.
    by apply flask_run_tracked, fresh_world_tracked.
Qed.

(** X14.  At every point of such a run the ids the users keep in
    [todo_ids] are pairwise different, also between users, and each of them
    is the id of a record on the server. *)
Theorem load_test_tracked_ids :
  (∀ measure schedule todos n,
     TodoLoadTest.tracked_ok TodoLoadTest.fastapi_stored (λ _, True)
       (TodoLoadTest.run (TodoLoadTest.fastapi_client measure) schedule
          {| TodoLoadTest.server_state := todos;
             TodoLoadTest.collected := [];
             TodoLoadTest.users := replicate n [] |})) ∧
  (∀ measure schedule todos n,
     Forall (λ ua, TodoLoadTest.in_range ua.2) schedule →
     TodoLoadTest.tracked_ok TodoLoadTest.flask_stored (λ x, 1 ≤ x ≤ 10000)
       (TodoLoadTest.run (TodoLoadTest.flask_client measure) schedule
          {| TodoLoadTest.server_state := todos;
             TodoLoadTest.collected := [];
             TodoLoadTest.users := replicate n [] |})).
Proof.
  split.
  - intros measure schedule todos n.
    apply fastapi_run_tracked, fresh_world_tracked.
  - intros measure schedule todos n Hr.
    by apply flask_run_tracked, fresh_world_tracked.
Qed.

(** X15.  Against either program the [success] flag of every recorded
    request is true exactly when the status code is a 2xx code: the lists
    of expected codes in the tasks cover every code the programs answer
    with. *)
Theorem load_test_flags_follow_codes :
  (∀ measure schedule todos users,
     TodoLoadTest.flags_follow_codes
       (TodoLoadTest.collected
          (TodoLoadTest.run (TodoLoadTest.fastapi_client measure) schedule
             {| TodoLoadTest.server_state := todos;
                TodoLoadTest.collected := [];
                TodoLoadTest.users := users |}))) ∧
  (∀ measure schedule todos users,
     TodoLoadTest.flags_follow_codes
       (TodoLoadTest.collected
          (TodoLoadTest.run (TodoLoadTest.flask_client measure) schedule
             {| TodoLoadTest.server_state := todos;
                TodoLoadTest.collected := [];
                TodoLoadTest.users := users |}))).
Proof.
  split.
  - intros measure schedule todos users. apply run_flags.
    + intros req s s' r. rewrite fastapi_client_eq. intros [= <- <-]. simpl.
      apply fastapi_code_of_route.
    + intros m Hm. by apply elem_of_nil in Hm.
  - intros measure schedule todos users. apply run_flags.
    + intros req s s' r. rewrite flask_client_eq. intros [= <- <-]. simpl.
      rewrite <- flask_codes_to_flask. apply flask_code_of_route.
    + intros m Hm. by apply elem_of_nil in Hm.
Qed.

Lemma load_test_only_creates_fail_witness :
  Locust.success
    {| Locust.request_type := "DELETE"; Locust.name := "/todos/5";
       Locust.response_length := 0; Locust.response_code := 204;
       Locust.concurrent_users := 2; Locust.success := true |} = true
  ∧
  Locust.success
    {| Locust.request_type := "PUT"; Locust.name := "/todos/5";
       Locust.response_length := 0; Locust.response_code := 200;
       Locust.concurrent_users := 2; Locust.success := true |} = true.
Proof.
  split.
  - apply (proj1 load_test_only_creates_fail (λ _, 0)
             [(0%nat, TodoLoadTest.Create_todo 5 7 2);
              (1%nat, TodoLoadTest.Create_todo 5 8 2);
              (0%nat, TodoLoadTest.Delete_todo 4 2)] [] 2%nat).
    + vm_compute. apply list_elem_of_further, list_elem_of_further,
        list_elem_of_here.
    + discriminate.
  - apply (proj2 load_test_only_creates_fail (λ _, 0)
             [(0%nat, TodoLoadTest.Create_todo 5 7 2);
              (0%nat, TodoLoadTest.Update_todo 3 9 true 2)] [] 1%nat).
    + repeat constructor; simpl; lia.
    + vm_compute. apply list_elem_of_further, list_elem_of_here.
    + discriminate.
Defined.

Lemma load_test_tracked_ids_witness :
  NoDup
    (concat
       (TodoLoadTest.users
          (TodoLoadTest.run (TodoLoadTest.fastapi_client (λ _, 0))
             [(0%nat, TodoLoadTest.Create_todo 5 7 2);
              (1%nat, TodoLoadTest.Create_todo 5 8 2);
              (1%nat, TodoLoadTest.Create_todo 6 8 2)]
             {| TodoLoadTest.server_state := [];
                TodoLoadTest.collected := [];
                TodoLoadTest.users := replicate 2 [] |})))
  ∧
  TodoLoadTest.flask_stored
    (TodoLoadTest.server_state
       (TodoLoadTest.run (TodoLoadTest.flask_client (λ _, 0))
          [(0%nat, TodoLoadTest.Create_todo 5 7 2);
           (0%nat, TodoLoadTest.Create_todo 6 7 2);
           (0%nat, TodoLoadTest.Delete_todo 0 2)]
          {| TodoLoadTest.server_state := [];
             TodoLoadTest.collected := [];
             TodoLoadTest.users := replicate 1 [] |}))
    6.
Proof.
  split.
  - apply (proj1 load_test_tracked_ids).
  - apply (proj2 load_test_tracked_ids (λ _, 0)
             [(0%nat, TodoLoadTest.Create_todo 5 7 2);
              (0%nat, TodoLoadTest.Create_todo 6 7 2);
              (0%nat, TodoLoadTest.Delete_todo 0 2)] [] 1%nat).
    + repeat constructor; simpl; lia.
    + vm_compute. apply list_elem_of_here.
Defined.

Lemma load_test_flags_follow_codes_witness :
  Locust.success
    {| Locust.request_type := "POST"; Locust.name := "/todos";
       Locust.response_length := 0; Locust.response_code := 400;
       Locust.concurrent_users := 2; Locust.success := false |}
  = succeeded 400.
Proof.
  apply (proj2 load_test_flags_follow_codes (λ _, 0)
           [(0%nat, TodoLoadTest.Create_todo 5 7 2);
            (1%nat, TodoLoadTest.Create_todo 5 8 2)] [] [[]; []]).
  vm_compute. apply list_elem_of_further, list_elem_of_here.
Defined.

(** ** The load test against one program and against the other *)

Lemma same_client measure_a measure_k req todos :
  path_ok req = true →
  (TodoLoadTest.flask_client measure_k req (map same_todo todos)).1
  = map same_todo (TodoLoadTest.fastapi_client measure_a req todos).1 ∧
  TodoLoadTest.status_code
    (TodoLoadTest.flask_client measure_k req (map same_todo todos)).2
  = TodoLoadTest.status_code
      (TodoLoadTest.fastapi_client measure_a req todos).2.
Proof.
  intros H. rewrite flask_client_eq, fastapi_client_eq. simpl.
  apply (same_step req todos H).
Qed.

Lemma observed_add_metric request_type name len len' code users_ success ms ms' :
  map TodoLoadTest.observed ms' = map TodoLoadTest.observed ms →
  map TodoLoadTest.observed
    (PerformanceMetricsCollector.add_metric request_type name len' code users_
       success ms')
  = map TodoLoadTest.observed
      (PerformanceMetricsCollector.add_metric request_type name len code users_
         success ms).
Proof.
  intros H. unfold PerformanceMetricsCollector.add_metric.
  by rewrite !map_app, H.
Qed.

(** One task of one user, run against both programs from related worlds. *)
Lemma same_perform measure_a measure_k a todos ms ms' ids :
  (∀ x, x ∈ ids → 0 ≤ x) →
  map TodoLoadTest.observed ms' = map TodoLoadTest.observed ms →
  let sa := TodoLoadTest.perform (TodoLoadTest.fastapi_client measure_a) a
              {| TodoLoadTest.backend := todos; TodoLoadTest.metrics := ms;
                 TodoLoadTest.todo_ids := ids |} in
  let sk := TodoLoadTest.perform (TodoLoadTest.flask_client measure_k) a
              {| TodoLoadTest.backend := map same_todo todos;
                 TodoLoadTest.metrics := ms'; TodoLoadTest.todo_ids := ids |} in
  TodoLoadTest.backend sk = map same_todo (TodoLoadTest.backend sa) ∧
  map TodoLoadTest.observed (TodoLoadTest.metrics sk)
  = map TodoLoadTest.observed (TodoLoadTest.metrics sa) ∧
  TodoLoadTest.todo_ids sk = TodoLoadTest.todo_ids sa.
Proof.
  intros Hpos Hms.
  assert (∀ req, path_ok req = true →
            ∃ ta ra tk rk,
              TodoLoadTest.fastapi_client measure_a req todos = (ta, ra) ∧
              TodoLoadTest.flask_client measure_k req (map same_todo todos)
              = (tk, rk) ∧
              tk = map same_todo ta ∧
              TodoLoadTest.status_code rk = TodoLoadTest.status_code ra) as Hsame.
  { intros req Hreq.
    destruct (same_client measure_a measure_k req todos Hreq) as [H1 H2].
    destruct (TodoLoadTest.fastapi_client measure_a req todos) as [ta ra].
    destruct (TodoLoadTest.flask_client measure_k req (map same_todo todos))
      as [tk rk]. by exists ta, ra, tk, rk. }
  destruct a as [uc|idd itd uc|pick itd cd uc|pick uc];
    cbn [TodoLoadTest.perform]; cbv zeta.
  - unfold TodoLoadTest.get_todos.
    cbn [TodoLoadTest.backend TodoLoadTest.metrics TodoLoadTest.todo_ids].
    destruct (Hsame FastAPI.GET_todos eq_refl)
      as (ta & ra & tk & rk & -> & -> & -> & Hc).
    cbn [TodoLoadTest.backend TodoLoadTest.metrics TodoLoadTest.todo_ids].
    rewrite Hc. split; [done|]. split; [|done]. by apply observed_add_metric.
  - unfold TodoLoadTest.create_todo.
    cbn [TodoLoadTest.backend TodoLoadTest.metrics TodoLoadTest.todo_ids].
    destruct (Hsame (FastAPI.POST_todos
                       {| FastAPI.id := idd;
                          FastAPI.item := String.append "Test Todo " (pretty itd);
                          FastAPI.completed := false |}) eq_refl)
      as (ta & ra & tk & rk & -> & -> & -> & Hc).
    cbn [TodoLoadTest.backend TodoLoadTest.metrics TodoLoadTest.todo_ids].
    rewrite Hc. split; [done|]. split; [|done]. by apply observed_add_metric.
  - destruct (decide (ids = [])) as [->|Hne]; [done|].
    rewrite !update_todo_nonempty by done. cbv zeta.
    destruct (Hsame (FastAPI.PUT_todo (TodoLoadTest.choice pick ids)
                       {| FastAPI.id := TodoLoadTest.choice pick ids;
                          FastAPI.item :=
                            String.append "Updated Todo " (pretty itd);
                          FastAPI.completed := cd |}))
      as (ta & ra & tk & rk & -> & -> & -> & Hc).
    { unfold path_ok. simpl. apply Z.leb_le, Hpos. by apply choice_elem. }
    cbn [TodoLoadTest.backend TodoLoadTest.metrics TodoLoadTest.todo_ids].
    rewrite Hc. split; [done|]. split; [|done]. by apply observed_add_metric.
  - destruct (decide (ids = [])) as [->|Hne]; [done|].
    rewrite !delete_todo_nonempty by done. cbv zeta.
    destruct (Hsame (FastAPI.DELETE_todo (TodoLoadTest.choice pick ids)))
      as (ta & ra & tk & rk & -> & -> & -> & Hc).
    { unfold path_ok. simpl. apply Z.leb_le, Hpos. by apply choice_elem. }
    cbn [TodoLoadTest.backend TodoLoadTest.metrics TodoLoadTest.todo_ids].
    rewrite Hc. split; [done|]. split; [|done]. by apply observed_add_metric.
Qed.

Lemma same_load_test_step measure_a measure_k u a wa wk :
  (∀ x, x ∈ concat (TodoLoadTest.users wa) → 0 ≤ x) →
  TodoLoadTest.server_state wk = map same_todo (TodoLoadTest.server_state wa) →
  map TodoLoadTest.observed (TodoLoadTest.collected wk)
  = map TodoLoadTest.observed (TodoLoadTest.collected wa) →
  TodoLoadTest.users wk = TodoLoadTest.users wa →
  let ra := TodoLoadTest.step (TodoLoadTest.fastapi_client measure_a) u a wa in
  let rk := TodoLoadTest.step (TodoLoadTest.flask_client measure_k) u a wk in
  TodoLoadTest.server_state rk = map same_todo (TodoLoadTest.server_state ra) ∧
  map TodoLoadTest.observed (TodoLoadTest.collected rk)
  = map TodoLoadTest.observed (TodoLoadTest.collected ra) ∧
  TodoLoadTest.users rk = TodoLoadTest.users ra.
Proof.
  intros Hpos Hs Hm Hu. unfold TodoLoadTest.step. rewrite Hu, Hs.
  destruct (TodoLoadTest.users wa !! u) as [ids|] eqn:Hids; [|done].
  cbv zeta.
  cbn [TodoLoadTest.server_state TodoLoadTest.collected TodoLoadTest.users].
  destruct (same_perform measure_a measure_k a (TodoLoadTest.server_state wa)
              (TodoLoadTest.collected wa) (TodoLoadTest.collected wk) ids)
    as (H1 & H2 & H3); [|done|].
  - intros x Hx. apply Hpos. rewrite (concat_lookup_perm _ _ _ Hids).
    apply elem_of_app. by left.
  - by rewrite H1, H2, H3.
Qed.

Lemma same_load_test_run measure_a measure_k schedule wa wk :
  Forall (λ ua, TodoLoadTest.in_range ua.2) schedule →
  TodoLoadTest.tracked_ok TodoLoadTest.fastapi_stored (λ x, 1 ≤ x ≤ 10000) wa ∧
  TodoLoadTest.only_creates_fail (TodoLoadTest.collected wa) →
  TodoLoadTest.server_state wk = map same_todo (TodoLoadTest.server_state wa) →
  map TodoLoadTest.observed (TodoLoadTest.collected wk)
  = map TodoLoadTest.observed (TodoLoadTest.collected wa) →
  TodoLoadTest.users wk = TodoLoadTest.users wa →
  let ra := TodoLoadTest.run (TodoLoadTest.fastapi_client measure_a) schedule wa in
  let rk := TodoLoadTest.run (TodoLoadTest.flask_client measure_k) schedule wk in
  TodoLoadTest.server_state rk = map same_todo (TodoLoadTest.server_state ra) ∧
  map TodoLoadTest.observed (TodoLoadTest.collected rk)
  = map TodoLoadTest.observed (TodoLoadTest.collected ra) ∧
  TodoLoadTest.users rk = TodoLoadTest.users ra.
Proof.
  revert wa wk. induction schedule as [|[u a] schedule IH];
    intros wa wk Hr Hinv Hs Hm Hu; [done|].
  apply Forall_cons in Hr as [Ha Hr]. simpl.
  destruct (same_load_test_step measure_a measure_k u a wa wk)
    as (H1 & H2 & H3); try done.
  { intros x Hx. destruct Hinv as [[_ Hst] _]. apply Hst in Hx as [Hx _]. lia. }
  apply IH; try done.
  apply (step_tracked (TodoLoadTest.fastapi_client measure_a)
           TodoLoadTest.fastapi_stored (λ x, 1 ≤ x ≤ 10000)).
  - apply fastapi_backend_get.
  - intros t s s' r _. apply fastapi_backend_post.
  - intros n t s s' r _. apply fastapi_backend_put.
  - intros n s s' r _. apply fastapi_backend_delete.
  - by apply in_range_draws.
  - done.
Qed.

(** X17.  The load test cannot tell the two programs apart: the same
    schedule of tasks, with ids drawn as [random.randint(1, 10000)] draws
    them, run against each program from an empty list, records the same
    requests with the same status codes and success flags (only the
    response lengths may differ), leaves every user with the same
    [todo_ids], and leaves the same records on both servers. *)
Theorem load_test_same_on_both :
  ∀ measure_a measure_k schedule n,
    Forall (λ ua, TodoLoadTest.in_range ua.2) schedule →
    let ra := TodoLoadTest.run (TodoLoadTest.fastapi_client measure_a) schedule
                {| TodoLoadTest.server_state := [];
                   TodoLoadTest.collected := [];
                   TodoLoadTest.users := replicate n [] |} in
    let rk := TodoLoadTest.run (TodoLoadTest.flask_client measure_k) schedule
                {| TodoLoadTest.server_state := [];
                   TodoLoadTest.collected := [];
                   TodoLoadTest.users := replicate n [] |} in
    TodoLoadTest.server_state rk = map same_todo (TodoLoadTest.server_state ra) ∧
    map TodoLoadTest.observed (TodoLoadTest.collected rk)
    = map TodoLoadTest.observed (TodoLoadTest.collected ra) ∧
    TodoLoadTest.users rk = TodoLoadTest.users ra.
Proof.
  intros measure_a measure_k schedule n Hr.
  apply same_load_test_run; try done. apply fresh_world_tracked.
Qed.

Lemma load_test_same_on_both_witness :
  map TodoLoadTest.observed
    (TodoLoadTest.collected
       (TodoLoadTest.run (TodoLoadTest.flask_client (λ _, 1))
          [(0%nat, TodoLoadTest.Create_todo 5 7 2);
           (0%nat, TodoLoadTest.Delete_todo 3 2)]
          {| TodoLoadTest.server_state := [];
             TodoLoadTest.collected := [];
             TodoLoadTest.users := replicate 1 [] |}))
  = map TodoLoadTest.observed
      (TodoLoadTest.collected
         (TodoLoadTest.run (TodoLoadTest.fastapi_client (λ _, 0))
            [(0%nat, TodoLoadTest.Create_todo 5 7 2);
             (0%nat, TodoLoadTest.Delete_todo 3 2)]
            {| TodoLoadTest.server_state := [];
               TodoLoadTest.collected := [];
               TodoLoadTest.users := replicate 1 [] |})).
Proof.
  apply (load_test_same_on_both (λ _, 0) (λ _, 1)
           [(0%nat, TodoLoadTest.Create_todo 5 7 2);
            (0%nat, TodoLoadTest.Delete_todo 3 2)] 1%nat).
  repeat constructor; simpl; lia.
Defined.

(** ** The quotients of the load-test summary *)




(** A division by zero ends the summary early: with no sample at the
    average, with an elapsed time of zero at the throughput, after the lines
    before it are printed. *)
Lemma print_summary_division_by_zero py_sum metrics test_duration :
  metrics = [] ∨ PrimFloat.eqb test_duration 0 = true →
  (PerformanceMetricsCollector._print_summary py_sum metrics test_duration).2
  = PerformanceMetricsCollector.Raised_ZeroDivisionError.
Proof.
  unfold PerformanceMetricsCollector._print_summary, Locust.summary_counts.
  intros [->|Hd]; [done|]. destruct metrics; [done|]. simpl. by rewrite Hd.
Qed.
